(** * Faff-time analysis: a shallow embedding of the segmentation engine

    The development follows the TypeScript/JavaScript sources:
    - [src/utils.js], [src/utils/gps-utils.ts]: [matchesTimeRange],
      [convertGpsCoordinates];
    - [src/analysis.js]: [extractActivityTimes], [findTimestampGaps] with the
      fixed five-minute threshold, [processSlowSequence];
    - [src/main.ts]: [findTimestampGaps] with a configurable threshold and the
      gap-aware [findSlowPeriodsWithRanges];
    - [src/main.js]: the older variants (simple segmentation, conditional
      fallback to the records in [extractActivityTimes]).
    - [src/utils.js], [src/main.ts], [src/ui/map-manager.ts]: the pure parts
      of the display and map helpers ([formatDuration], [getSelectedRanges],
      the statistics of [createSlowPeriodsDisplay] and [displayActivityData],
      [collectAvailableGpsPoints], the dispatch of [initializeGapMiniMap]).

    Numbers.  A JavaScript number is modelled as [num := option Q]: [None] is
    NaN and [Some q] the exact rational [q].  The quantities the engine
    computes with are differences of integer millisecond time values, divided
    by the constants 60000 and 60 and compared with small integer constants,
    and int32 semicircles multiplied by 180/2^31; on those the IEEE double
    operations and the exact rational ones give the same comparisons, roundings
    and products.  The one computation on arbitrary doubles is the end time of
    the summary, [startTime.getTime() + totalElapsedTime * 1000]: there the
    product and the sum are rounded to the nearest double ([JS.mul64],
    [JS.add64]) before [new Date] truncates.  Infinities are not modelled: a
    result beyond the largest double is also beyond the range of time values,
    which [new Date] rejects in either case.

    Absent fields.  The record interfaces declare every field optional
    ([timestamp?: Date], ...), so an absent field reads as [undefined]; it is
    [None] here.  [undefined] converts to NaN in arithmetic and is falsy. *)

From Stdlib Require Import ZArith QArith Qround Qabs Lqa Lia String List.
From Stdlib Require Import Sorting.Sorted Sorting.Permutation.
From Stdlib Require Import Ascii.
From stdpp Require Import base list strings pretty.
Import ListNotations.

(** ** JavaScript values *)

Module JS.

Definition num : Type := option Q.

Definition NaN : num := None.

Definition of_Z (z : Z) : num := Some (inject_Z z).

Definition lift2 (f : Q -> Q -> Q) (a b : num) : num :=
  match a, b with
  | Some x, Some y => Some (f x y)
  | _, _ => NaN
  end.

Definition sub : num -> num -> num := lift2 Qminus.
Definition add : num -> num -> num := lift2 Qplus.
Definition mul : num -> num -> num := lift2 Qmult.

(** Rounding to the nearest double (IEEE 754 binary64, ties to even): 53
    significant bits from the binade of the value, the binade of the smallest
    normal numbers for the subnormal ones. *)
Definition Qround_half_even (q : Q) : Z :=
  let f := Qfloor q in
  match Qcompare (q - inject_Z f) (1 # 2) with
  | Lt => f
  | Gt => (f + 1)%Z
  | Eq => if Z.even f then f else (f + 1)%Z
  end.

Definition pow2 (e : Z) : Q := Qpower 2 e.

(** The [e] with [2^e <= a < 2^(e+1)], for [a > 0]. *)
Definition binade (a : Q) : Z :=
  let k := (Z.log2 (Qnum a) - Z.log2 (Zpos (Qden a)))%Z in
  if Qle_bool (pow2 k) a then k else (k - 1)%Z.

Definition double (q : Q) : Q :=
  if Qeq_bool q 0 then 0
  else
    let e := Z.max (binade (Qabs q)) (-1022) in
    let ulp := pow2 (e - 52) in
    Qred (inject_Z (Qround_half_even (q / ulp)) * ulp).

(** [a * b] and [a + b] on doubles. *)
Definition mul64 : num -> num -> num := lift2 (fun x y => double (x * y)).
Definition add64 : num -> num -> num := lift2 (fun x y => double (x + y)).

(** Division by a non-zero constant, the only division the sources perform. *)
Definition div (a : num) (k : Q) : num := option_map (fun x => (x / k)%Q) a.

Definition Qlt_bool (x y : Q) : bool := negb (Qle_bool y x).

(** Relational operators: any comparison with NaN is [false]. *)
Definition lt (a b : num) : bool :=
  match a, b with
  | Some x, Some y => Qlt_bool x y
  | _, _ => false
  end.

Definition ge (a b : num) : bool :=
  match a, b with
  | Some x, Some y => Qle_bool y x
  | _, _ => false
  end.

Definition gt (a b : num) : bool := lt b a.

(** [Math.round]: the nearest integer, ties towards plus infinity. *)
Definition Qround_half_up (q : Q) : Z := Qfloor (q + (1 # 2)).

Definition Math_round (a : num) : num :=
  option_map (fun q => inject_Z (Qround_half_up q)) a.

(** Truthiness of [number | undefined]: [undefined], [0] and NaN are falsy. *)
Definition truthy (a : option Q) : bool :=
  match a with
  | Some q => negb (Qeq_bool q 0)
  | None => false
  end.

Definition truthyZ (a : option Z) : bool :=
  match a with
  | Some z => negb (z =? 0)%Z
  | None => false
  end.

(** [a || b] on optional numbers returns [a] when it is truthy, else [b]. *)
Definition or (a b : option Q) : option Q := if truthy a then a else b.

(** [a || d] where [d] is a number: the result is a number. *)
Definition or_num (a : option Q) (d : Q) : Q :=
  match a with
  | Some q => if Qeq_bool q 0 then d else q
  | None => d
  end.

(** A [Date] holds an integer time value in milliseconds, or is invalid. *)
Inductive Date : Type :=
  | TimeValue (ms : Z)
  | InvalidDate.

Definition getTime (d : Date) : num :=
  match d with
  | TimeValue ms => of_Z ms
  | InvalidDate => NaN
  end.

(** [ToNumber] of a field of type [Date | undefined], as the subtraction
    [a.timestamp - b.timestamp] applies it. *)
Definition toNumber (d : option Date) : num :=
  match d with
  | Some d => getTime d
  | None => NaN
  end.

Definition Qtrunc (q : Q) : Z := Z.quot (Qnum q) (Zpos (Qden q)).

(** [new Date(t)]: TimeClip keeps |t| <= 8.64e15 and truncates it. *)
Definition newDate (t : num) : Date :=
  match t with
  | Some q =>
      if Qle_bool (Qabs q) (inject_Z 8640000000000000)
      then TimeValue (Qtrunc q) else InvalidDate
  | None => InvalidDate
  end.

(** Completion of a call: a value or a thrown error. *)
Inductive error : Type := TypeError.

Inductive completion (A : Type) : Type :=
  | Normal (a : A)
  | Throw (e : error).

Arguments Normal {A} a.
Arguments Throw {A} e.

Definition bind {A B} (c : completion A) (k : A -> completion B) : completion B :=
  match c with
  | Normal a => k a
  | Throw e => Throw e
  end.

End JS.

(** ** Data model ([types/app-types.ts]) *)

Module FitRecord.
Record t : Type := mk {
  timestamp : option JS.Date;
  speed : option Q;
  enhancedSpeed : option Q;
  distance : option Q;
  positionLat : option Z;
  positionLong : option Z
}.
End FitRecord.

Module FitSession.
Record t : Type := mk {
  startTime : option JS.Date;
  totalTimerTime : option Q;
  totalElapsedTime : option Q;
  totalDistance : option Q
}.
End FitSession.

Module ActivityTimes.
Record t : Type := mk {
  startTime : option JS.Date;
  endTime : option JS.Date;
  movingTime : option Q;
  totalDistance : option Q
}.
End ActivityTimes.

Definition GpsPoint : Type := (JS.num * JS.num)%type.

Module TimestampGap.
Record t : Type := mk {
  startTime : option JS.Date;
  endTime : option JS.Date;
  gapDuration : JS.num;
  gapDurationMinutes : JS.num;
  gapDurationHours : JS.num;
  startDistance : Q;
  endDistance : Q;
  startGpsPoint : option GpsPoint;
  endGpsPoint : option GpsPoint
}.
End TimestampGap.

Module SlowPeriod.
Record t : Type := mk {
  startTime : option JS.Date;
  endTime : option JS.Date;
  recordCount : nat;
  startDistance : Q;
  endDistance : Q;
  gpsPoints : list GpsPoint;
  isGap : bool;
  gapData : option TimestampGap.t
}.
End SlowPeriod.

(** ** Constants *)

Definition SPEED_THRESHOLD : Q := 3 # 4.

Definition TIMESTAMP_GAP_THRESHOLD : Q := inject_Z (5 * 60 * 1000).

(** [180 / Math.pow(2, 31)] *)
Definition SEMICIRCLE_TO_DEGREES : Q := 180 / inject_Z (2 ^ 31).

(** ** [utils.js] *)

(** [matchesTimeRange(range, durationMinutes, durationHours)]: a [switch] on
    the tag with a [default] branch. *)
Definition matchesTimeRange (range : string) (durationMinutes durationHours : JS.num) : bool :=
  if String.eqb range "2to5" then
    JS.ge durationMinutes (JS.of_Z 2) && JS.lt durationMinutes (JS.of_Z 5)
  else if String.eqb range "5to10" then
    JS.ge durationMinutes (JS.of_Z 5) && JS.lt durationMinutes (JS.of_Z 10)
  else if String.eqb range "10to30" then
    JS.ge durationMinutes (JS.of_Z 10) && JS.lt durationMinutes (JS.of_Z 30)
  else if String.eqb range "30to60" then
    JS.ge durationMinutes (JS.of_Z 30) && JS.lt durationMinutes (JS.of_Z 60)
  else if String.eqb range "1to2hours" then
    JS.ge durationHours (JS.of_Z 1) && JS.lt durationHours (JS.of_Z 2)
  else if String.eqb range "over2hours" then
    JS.ge durationHours (JS.of_Z 2)
  else false.

(** [record.positionLat && record.positionLong] used as a condition. *)
Definition hasPosition (record : FitRecord.t) : bool :=
  JS.truthyZ (FitRecord.positionLat record) && JS.truthyZ (FitRecord.positionLong record).

(** [ToNumber] of a coordinate field of type [number | undefined]. *)
Definition coordinate (semicircles : option Z) : JS.num :=
  match semicircles with
  | Some z => JS.of_Z z
  | None => JS.NaN
  end.

(** [x * (180 / Math.pow(2, 31))] for a coordinate field. *)
Definition toDegrees (semicircles : option Z) : JS.num :=
  JS.mul (coordinate semicircles) (Some SEMICIRCLE_TO_DEGREES).

Definition gpsPointOf (record : FitRecord.t) : GpsPoint :=
  (toDegrees (FitRecord.positionLat record), toDegrees (FitRecord.positionLong record)).

(** [records.filter(r => r.positionLat && r.positionLong).map(r => [...])] *)
Definition convertGpsCoordinates (records : list FitRecord.t) : list GpsPoint :=
  List.map gpsPointOf (List.filter hasPosition records).

(** ** [analysis.js] and [main.ts]: the time extractor *)

(** The summary branch of [extractActivityTimes]: the four locals after
    [if (sessions.length > 0) { ... }].  [startTime.getTime()] on an
    [undefined] start time throws a [TypeError].  The end time is
    [new Date(startTime.getTime() + totalElapsedTime * 1000)], product and sum
    in doubles. *)
Definition summaryTimes (sessions : list FitSession.t)
  : JS.completion (option JS.Date * option JS.Date * option Q * option Q) :=
  match sessions with
  | [] => JS.Normal (None, None, None, None)
  | session :: _ =>
      let startTime := FitSession.startTime session in
      let movingTime := FitSession.totalTimerTime session in
      let totalDistance := FitSession.totalDistance session in
      if JS.truthy (FitSession.totalElapsedTime session) then
        match startTime with
        | Some d =>
            let endTime :=
              JS.newDate (JS.add64 (JS.getTime d)
                            (JS.mul64 (FitSession.totalElapsedTime session) (JS.of_Z 1000))) in
            JS.Normal (startTime, Some endTime, movingTime, totalDistance)
        | None => JS.Throw JS.TypeError
        end
      else JS.Normal (startTime, None, movingTime, totalDistance)
  end.

(** [extractActivityTimes] of [analysis.js], [main.ts] and the parser module:
    the records overwrite the start and end whenever there are any. *)
Definition extractActivityTimes (sessions : list FitSession.t) (records : list FitRecord.t)
  : JS.completion ActivityTimes.t :=
  JS.bind (summaryTimes sessions) (fun '(startTime, endTime, movingTime, totalDistance) =>
    match records with
    | [] => JS.Normal (ActivityTimes.mk startTime endTime movingTime totalDistance)
    | first :: _ =>
        JS.Normal (ActivityTimes.mk (FitRecord.timestamp first)
                     (FitRecord.timestamp (List.last records first))
                     movingTime totalDistance)
    end).

(** ** The gap detector *)

(** The ternary building [startGpsPoint] / [endGpsPoint]. *)
Definition gpsPointOrNull (record : FitRecord.t) : option GpsPoint :=
  if hasPosition record then Some (gpsPointOf record) else None.

(** The object pushed for a pair of records with time difference
    [timeDifference]. *)
Definition makeGap (previousRecord currentRecord : FitRecord.t) (timeDifference : JS.num)
  : TimestampGap.t :=
  let gapDurationMinutes := JS.Math_round (JS.div timeDifference (inject_Z (1000 * 60))) in
  let gapDurationHours := JS.div gapDurationMinutes 60 in
  {| TimestampGap.startTime := FitRecord.timestamp previousRecord;
     TimestampGap.endTime := FitRecord.timestamp currentRecord;
     TimestampGap.gapDuration := timeDifference;
     TimestampGap.gapDurationMinutes := gapDurationMinutes;
     TimestampGap.gapDurationHours := gapDurationHours;
     TimestampGap.startDistance := JS.or_num (FitRecord.distance previousRecord) 0;
     TimestampGap.endDistance := JS.or_num (FitRecord.distance currentRecord) 0;
     TimestampGap.startGpsPoint := gpsPointOrNull previousRecord;
     TimestampGap.endGpsPoint := gpsPointOrNull currentRecord |}.

(** [!record.timestamp]: a [Date] object is truthy, [undefined] is not. *)
Definition noTimestamp (record : FitRecord.t) : bool :=
  match FitRecord.timestamp record with
  | Some _ => false
  | None => true
  end.

(** One iteration of [for (let i = 1; i < records.length; i++)]; the two
    index reads are in range for every [i] the loop visits. *)
Definition gapStep (records : list FitRecord.t) (gapThreshold : JS.num)
    (gaps : list TimestampGap.t) (i : nat) : list TimestampGap.t :=
  match records !! (i - 1)%nat, records !! i with
  | Some previousRecord, Some currentRecord =>
      if noTimestamp previousRecord || noTimestamp currentRecord then gaps
      else
        let timeDifference :=
          JS.sub (JS.toNumber (FitRecord.timestamp currentRecord))
                 (JS.toNumber (FitRecord.timestamp previousRecord)) in
        if JS.gt timeDifference gapThreshold
        then gaps ++ [makeGap previousRecord currentRecord timeDifference]
        else gaps
  | _, _ => gaps
  end.

Definition gapLoop (records : list FitRecord.t) (gapThreshold : JS.num) : list TimestampGap.t :=
  fold_left (gapStep records gapThreshold) (seq 1 (length records - 1)) [].

(** The state of the [timestampGapThreshold] select element, which lives in
    the page: [None] when the element is missing or its value is empty,
    [Some n] when [parseInt] of its value is [n] (NaN for a non-numeric
    value). *)
Definition ThresholdSelect : Type := option JS.num.

(** [select && select.value ? parseInt(select.value) : 5 * 60 * 1000] *)
Definition currentThreshold (timestampGapThresholdSelect : ThresholdSelect) : JS.num :=
  match timestampGapThresholdSelect with
  | Some n => n
  | None => JS.of_Z (5 * 60 * 1000)
  end.

Module Analysis.

(** [findTimestampGaps(records)] of [analysis.js]. *)
Definition findTimestampGaps (records : list FitRecord.t) : list TimestampGap.t :=
  gapLoop records (Some TIMESTAMP_GAP_THRESHOLD).

End Analysis.

(** [findTimestampGaps(records, threshold = null)] of [main.ts]:
    [gapThreshold = threshold || (select ... )]. *)
Definition gapThresholdOf (threshold : option Q) (timestampGapThresholdSelect : ThresholdSelect)
  : JS.num :=
  if JS.truthy threshold then threshold else currentThreshold timestampGapThresholdSelect.

Definition findTimestampGaps (timestampGapThresholdSelect : ThresholdSelect)
    (records : list FitRecord.t) (threshold : option Q) : list TimestampGap.t :=
  gapLoop records (gapThresholdOf threshold timestampGapThresholdSelect).

(** ** The run finalizer *)

(** [selectedRanges.some(range => matchesTimeRange(range, minutes, hours))] *)
Definition matchesAnyRange (selectedRanges : list string) (minutes hours : JS.num) : bool :=
  existsb (fun range => matchesTimeRange range minutes hours) selectedRanges.

(** [processSlowSequence(currentSlowSequence, selectedRanges)]; the object it
    returns has no [isGap] and no [gapData] field, which read as [undefined]:
    [false] and [None] here. *)
Definition processSlowSequence (currentSlowSequence : list FitRecord.t)
    (selectedRanges : list string) : option SlowPeriod.t :=
  match currentSlowSequence with
  | [] => None
  | startRecord :: _ =>
      let endRecord := List.last currentSlowSequence startRecord in
      let durationMs :=
        JS.sub (JS.toNumber (FitRecord.timestamp endRecord))
               (JS.toNumber (FitRecord.timestamp startRecord)) in
      let durationMinutes := JS.div durationMs (inject_Z (1000 * 60)) in
      let durationHours := JS.div durationMinutes 60 in
      let matchesRange := matchesAnyRange selectedRanges durationMinutes durationHours in
      if matchesRange then
        let startDistance := JS.or_num (FitRecord.distance startRecord) 0 in
        let endDistance := JS.or_num (FitRecord.distance endRecord) startDistance in
        Some {| SlowPeriod.startTime := FitRecord.timestamp startRecord;
                SlowPeriod.endTime := FitRecord.timestamp endRecord;
                SlowPeriod.recordCount := length currentSlowSequence;
                SlowPeriod.startDistance := startDistance;
                SlowPeriod.endDistance := endDistance;
                SlowPeriod.gpsPoints := convertGpsCoordinates currentSlowSequence;
                SlowPeriod.isGap := false;
                SlowPeriod.gapData := None |}
      else None
  end.

(** ** [Array.prototype.sort] with a comparison function

    The language specification fixes the result of [sort] for a consistent
    comparison function: the elements in ascending order, equal ones in their
    original order (the sort is stable).  Insertion from the right computes
    that result.  [le a b] stands for "[comparefn(a, b)] is not positive"; a
    NaN comparison counts as zero. *)
Section ArraySort.

Context {A : Type} (le : A -> A -> bool).

Fixpoint sortInsert (x : A) (l : list A) : list A :=
  match l with
  | [] => [x]
  | y :: l' => if le x y then x :: l else y :: sortInsert x l'
  end.

Fixpoint arraySort (l : list A) : list A :=
  match l with
  | [] => []
  | x :: l' => sortInsert x (arraySort l')
  end.

End ArraySort.

(** ** The slow-run segmenter and the merger ([main.ts]) *)

(** [record.enhancedSpeed || record.speed || 0] *)
Definition effectiveSpeed (record : FitRecord.t) : JS.num :=
  JS.or (JS.or (FitRecord.enhancedSpeed record) (FitRecord.speed record)) (JS.of_Z 0).

Definition isSlow (record : FitRecord.t) : bool :=
  JS.lt (effectiveSpeed record) (Some SPEED_THRESHOLD).

(** [const p = processSlowSequence(...); if (p) { slowPeriods.push(p); }] *)
Definition pushIfAny (slowPeriods : list SlowPeriod.t) (p : option SlowPeriod.t)
  : list SlowPeriod.t :=
  match p with
  | Some slowPeriod => slowPeriods ++ [slowPeriod]
  | None => slowPeriods
  end.

(** The loop state: [slowPeriods] and [currentSlowSequence]. *)
Definition SegmentState : Type := (list SlowPeriod.t * list FitRecord.t)%type.

(** One iteration of the phase 1 loop of [main.ts] (gap-aware). *)
Definition slowStep (timestampGapThresholdSelect : ThresholdSelect)
    (selectedRanges : list string) (st : SegmentState) (record : FitRecord.t) : SegmentState :=
  let '(slowPeriods, currentSlowSequence) := st in
  if isSlow record then
    match currentSlowSequence with
    | first :: _ =>
        let previousRecord := List.last currentSlowSequence first in
        let timeDifference :=
          JS.sub (JS.toNumber (FitRecord.timestamp record))
                 (JS.toNumber (FitRecord.timestamp previousRecord)) in
        if JS.gt timeDifference (currentThreshold timestampGapThresholdSelect)
        then (pushIfAny slowPeriods (processSlowSequence currentSlowSequence selectedRanges),
              [record])
        else (slowPeriods, currentSlowSequence ++ [record])
    | [] => (slowPeriods, currentSlowSequence ++ [record])
    end
  else
    (pushIfAny slowPeriods (processSlowSequence currentSlowSequence selectedRanges), []).

(** Phase 1: the loop, then the flush of the trailing run. *)
Definition slowRuns (timestampGapThresholdSelect : ThresholdSelect)
    (records : list FitRecord.t) (selectedRanges : list string) : list SlowPeriod.t :=
  let '(slowPeriods, currentSlowSequence) :=
    fold_left (slowStep timestampGapThresholdSelect selectedRanges) records ([], []) in
  pushIfAny slowPeriods (processSlowSequence currentSlowSequence selectedRanges).

(** The nested ternary building [gpsPoints] of a gap period. *)
Definition gapGpsPoints (gap : TimestampGap.t) : list GpsPoint :=
  match TimestampGap.startGpsPoint gap, TimestampGap.endGpsPoint gap with
  | Some s, Some e => [s; e]
  | Some s, None => [s]
  | None, Some e => [e]
  | None, None => []
  end.

Definition gapAsPeriod (gap : TimestampGap.t) : SlowPeriod.t :=
  {| SlowPeriod.startTime := TimestampGap.startTime gap;
     SlowPeriod.endTime := TimestampGap.endTime gap;
     SlowPeriod.recordCount := 0;
     SlowPeriod.startDistance := TimestampGap.startDistance gap;
     SlowPeriod.endDistance := TimestampGap.endDistance gap;
     SlowPeriod.gpsPoints := gapGpsPoints gap;
     SlowPeriod.isGap := true;
     SlowPeriod.gapData := Some gap |}.

Definition gapMatches (selectedRanges : list string) (gap : TimestampGap.t) : bool :=
  matchesAnyRange selectedRanges
    (TimestampGap.gapDurationMinutes gap) (TimestampGap.gapDurationHours gap).

(** The body of [timestampGaps.forEach(gap => ...)]. *)
Definition gapPushStep (selectedRanges : list string)
    (slowPeriods : list SlowPeriod.t) (gap : TimestampGap.t) : list SlowPeriod.t :=
  if gapMatches selectedRanges gap then slowPeriods ++ [gapAsPeriod gap] else slowPeriods.

(** [(a, b) => a.startTime - b.startTime] *)
Definition compareStart (a b : SlowPeriod.t) : JS.num :=
  JS.sub (JS.toNumber (SlowPeriod.startTime a)) (JS.toNumber (SlowPeriod.startTime b)).

Definition startNotAfter (a b : SlowPeriod.t) : bool :=
  negb (JS.gt (compareStart a b) (JS.of_Z 0)).

Definition findSlowPeriodsWithRanges (timestampGapThresholdSelect : ThresholdSelect)
    (records : list FitRecord.t) (selectedRanges : list string) : list SlowPeriod.t :=
  match selectedRanges with
  | [] => []
  | _ :: _ =>
      let slowPeriods := slowRuns timestampGapThresholdSelect records selectedRanges in
      let timestampGaps := findTimestampGaps timestampGapThresholdSelect records None in
      let slowPeriods := fold_left (gapPushStep selectedRanges) timestampGaps slowPeriods in
      arraySort startNotAfter slowPeriods
  end.

(** ** [main.js]: the older variants *)

Module Legacy.

(** [if (!startTime && records.length > 0)]: the records only fill in a
    missing start time. *)
Definition extractActivityTimes (sessions : list FitSession.t) (records : list FitRecord.t)
  : JS.completion ActivityTimes.t :=
  JS.bind (summaryTimes sessions) (fun '(startTime, endTime, movingTime, totalDistance) =>
    match startTime, records with
    | None, first :: _ =>
        JS.Normal (ActivityTimes.mk (FitRecord.timestamp first)
                     (FitRecord.timestamp (List.last records first))
                     movingTime totalDistance)
    | _, _ => JS.Normal (ActivityTimes.mk startTime endTime movingTime totalDistance)
    end).

(** One iteration of the simple segmentation loop: a slow record always
    extends the run. *)
Definition slowStep (selectedRanges : list string) (st : SegmentState) (record : FitRecord.t)
  : SegmentState :=
  let '(slowPeriods, currentSlowSequence) := st in
  if isSlow record then (slowPeriods, currentSlowSequence ++ [record])
  else (pushIfAny slowPeriods (processSlowSequence currentSlowSequence selectedRanges), []).

Definition slowRuns (records : list FitRecord.t) (selectedRanges : list string)
  : list SlowPeriod.t :=
  let '(slowPeriods, currentSlowSequence) :=
    fold_left (slowStep selectedRanges) records ([], []) in
  pushIfAny slowPeriods (processSlowSequence currentSlowSequence selectedRanges).

Definition findSlowPeriodsWithRanges (records : list FitRecord.t)
    (selectedRanges : list string) : list SlowPeriod.t :=
  match selectedRanges with
  | [] => []
  | _ :: _ =>
      let slowPeriods := slowRuns records selectedRanges in
      let timestampGaps := Analysis.findTimestampGaps records in
      let slowPeriods := fold_left (gapPushStep selectedRanges) timestampGaps slowPeriods in
      arraySort startNotAfter slowPeriods
  end.

End Legacy.

(** ** Sample data used in the examples below *)

Definition T0 : Z := 1704103200000.

Definition at_ (ms : Z) : option JS.Date := Some (JS.TimeValue ms).

Definition sample (ms : Z) (speed : Q) (distance : Q) : FitRecord.t :=
  FitRecord.mk (at_ ms) (Some speed) None (Some distance) (Some 612553967%Z) (Some (-2193335)%Z).

(** The ride of the merge example: a fast start, a three-minute stop that
    begins two minutes in, and a ten-minute recording gap that begins ten
    minutes in. *)
Definition mergeExample : list FitRecord.t :=
  [sample T0 5 0; sample (T0 + 120000) 0 100; sample (T0 + 300000) 0 100;
   sample (T0 + 301000) 5 110; sample (T0 + 600000) 5 200; sample (T0 + 1200000) 5 300].

(** ** Specification-level notions *)

(** [lo <= x < hi] and [lo <= x] for a JavaScript number: false for NaN. *)
Definition inHalfOpen (lo hi : Z) (x : JS.num) : Prop :=
  exists q, x = Some q /\ (inject_Z lo <= q)%Q /\ (q < inject_Z hi)%Q.

Definition atLeast (lo : Z) (x : JS.num) : Prop :=
  exists q, x = Some q /\ (inject_Z lo <= q)%Q.

(** The six tags the classifier knows. *)
Definition knownRanges : list string :=
  ["2to5"; "5to10"; "10to30"; "30to60"; "1to2hours"; "over2hours"]%string.

(** The degrees of a semicircle count, as a number. *)
Definition degrees (semicircles : Z) : JS.num :=
  Some (inject_Z semicircles * SEMICIRCLE_TO_DEGREES)%Q.

(** What the gap detector is specified to emit for one consecutive pair:
    nothing unless both timestamps are present and their difference exceeds
    the threshold, else the one descriptor of the pair. *)
Definition gapOfPair (gapThreshold : JS.num) (prev cur : FitRecord.t) : list TimestampGap.t :=
  match FitRecord.timestamp prev, FitRecord.timestamp cur with
  | Some t1, Some t2 =>
      let diff := JS.sub (JS.getTime t2) (JS.getTime t1) in
      if JS.gt diff gapThreshold then [makeGap prev cur diff] else []
  | _, _ => []
  end.

(** The descriptors of all consecutive pairs, in scan order. *)
Fixpoint gapsOfPairs (gapThreshold : JS.num) (records : list FitRecord.t)
  : list TimestampGap.t :=
  match records with
  | prev :: (cur :: _) as rest => gapOfPair gapThreshold prev cur ++ gapsOfPairs gapThreshold rest
  | _ => []
  end.

(** A session summary with an elapsed time but no start time; the interface
    [FitSession] declares both fields optional. *)
Definition sessionWithoutStart : FitSession.t :=
  FitSession.mk None (Some 3600%Q) (Some 3900%Q) (Some 25000%Q).

(** A complete session summary, starting one second before [T0]. *)
Definition sessionComplete : FitSession.t :=
  FitSession.mk (at_ (T0 - 1000)) (Some 3600%Q) (Some 3900%Q) (Some 25000%Q).

(** A run of two slow samples three minutes apart whose last sample reports
    a distance of exactly 0. *)
Definition runEndingAtZero : list FitRecord.t :=
  [sample T0 0 100; sample (T0 + 180000) 0 0].

(** Two slow samples ten minutes apart. *)
Definition slowAcrossGap : list FitRecord.t :=
  [sample T0 0 100; sample (T0 + 600000) 0 100].

(** The time value of a period's start, when it is a valid date. *)
Definition startMs (p : SlowPeriod.t) : option Z :=
  match SlowPeriod.startTime p with
  | Some (JS.TimeValue ms) => Some ms
  | _ => None
  end.

(** A period with valid start and end dates that lie at least [lo]
    milliseconds apart. *)
Definition spans (lo : Z) (p : SlowPeriod.t) : Prop :=
  exists s e,
    SlowPeriod.startTime p = at_ s /\ SlowPeriod.endTime p = at_ e /\ (lo <= e - s)%Z.

(** What every slow-run period and every gap period of the output looks
    like. *)
Definition slowRunPeriod (p : SlowPeriod.t) : Prop :=
  SlowPeriod.isGap p = false /\ (1 <= SlowPeriod.recordCount p)%nat /\ spans 120000 p.

Definition gapPeriod (p : SlowPeriod.t) : Prop :=
  SlowPeriod.isGap p = true /\ SlowPeriod.recordCount p = 0%nat /\ spans 90000 p.

(** Ascending order of two periods by start time. *)
Definition startsNoLater (a b : SlowPeriod.t) : Prop :=
  exists s t, startMs a = Some s /\ startMs b = Some t /\ (s <= t)%Z.

(** The periods that start at a given time value. *)
Definition startsAt (t : Z) (p : SlowPeriod.t) : bool :=
  match startMs p with
  | Some s => (s =? t)%Z
  | None => false
  end.

(** Present timestamps in non-decreasing order. *)
Definition timeValueOf (record : FitRecord.t) : option Z :=
  match FitRecord.timestamp record with
  | Some (JS.TimeValue ms) => Some ms
  | _ => None
  end.

Fixpoint nonDecreasing (l : list Z) : bool :=
  match l with
  | x :: ((y :: _) as rest) => (x <=? y)%Z && nonDecreasing rest
  | _ => true
  end.

Definition timestampsNonDecreasing (records : list FitRecord.t) : Prop :=
  nonDecreasing (omap timeValueOf records) = true.

(** The three ranges selected in the merge example. *)
Definition shortRanges : list string := ["2to5"; "5to10"; "10to30"]%string.

(** A period's start does not come after its end. *)
Definition startBeforeEnd (p : SlowPeriod.t) : Prop :=
  exists s e,
    SlowPeriod.startTime p = at_ s /\ SlowPeriod.endTime p = at_ e /\ (s <= e)%Z.

(** The periods before sorting: the slow runs, then the gaps that match the
    selection. *)
Definition mergeOf (selectedRanges : list string) (slow : list SlowPeriod.t)
    (gaps : list TimestampGap.t) : list SlowPeriod.t :=
  slow ++ map gapAsPeriod (List.filter (gapMatches selectedRanges) gaps).

Definition mergedPeriods (ui : ThresholdSelect) (records : list FitRecord.t)
    (selectedRanges : list string) : list SlowPeriod.t :=
  mergeOf selectedRanges (slowRuns ui records selectedRanges)
    (findTimestampGaps ui records None).

Definition legacyMergedPeriods (records : list FitRecord.t) (selectedRanges : list string)
  : list SlowPeriod.t :=
  mergeOf selectedRanges (Legacy.slowRuns records selectedRanges)
    (Analysis.findTimestampGaps records).

(** What the merged output is specified to be, for the periods [merged]
    before sorting and the detected [gaps]. *)
Definition sortedMergeOf (selectedRanges : list string) (gaps : list TimestampGap.t)
    (merged out : list SlowPeriod.t) : Prop :=
  (forall g, In g gaps -> (In (gapAsPeriod g) out <-> gapMatches selectedRanges g = true)) /\
  Permutation out merged /\
  StronglySorted startsNoLater out /\
  (forall t, List.filter (startsAt t) out = List.filter (startsAt t) merged).

(** The invariant of an output period. *)
Definition periodInvariant (p : SlowPeriod.t) : Prop :=
  startBeforeEnd p /\
  (SlowPeriod.recordCount p = 0%nat <-> SlowPeriod.isGap p = true) /\
  (SlowPeriod.isGap p = false -> (1 <= SlowPeriod.recordCount p)%nat).

(** ** Display helpers ([utils.js], [utils/time-utils.ts], [main.ts]) *)

(** [formatDuration(totalSeconds)] on an integer number of seconds, which is
    what every caller passes (the result of [Math.round]).
    [Math.floor(a / b)] is the floor division and [%] the remainder with the
    sign of the dividend; an integer prints in decimal (below 1e21). *)
Definition formatDuration (totalSeconds : Z) : string :=
  let hours := (totalSeconds / 3600)%Z in
  let minutes := (Z.rem totalSeconds 3600 / 60)%Z in
  let seconds := Z.rem totalSeconds 60 in
  if (3600 <=? totalSeconds)%Z
  then pretty hours +:+ "h " +:+ pretty minutes +:+ "m " +:+ pretty seconds +:+ "s"
  else pretty minutes +:+ "m " +:+ pretty seconds +:+ "s".

(** The table [thresholdCheckboxes] of [main.ts]; [getElementById id] is the
    [checked] state of the element with that id, [None] when the page has no
    such element. *)
Definition thresholdCheckboxes (getElementById : string -> option bool)
  : list (string * option bool) :=
  [("2to5", getElementById "threshold_2to5");
   ("5to10", getElementById "threshold_5to10");
   ("10to30", getElementById "threshold_10to30");
   ("30to60", getElementById "threshold_30to60");
   ("1to2hours", getElementById "threshold_1to2hours");
   ("over2hours", getElementById "threshold_over2hours")]%string.

(** [checkbox?.checked] used as a condition. *)
Definition isChecked (checkbox : option bool) : bool :=
  match checkbox with
  | Some checked => checked
  | None => false
  end.

(** [Object.entries(thresholdCheckboxes).filter(([key, checkbox]) =>
    checkbox?.checked).map(([key, checkbox]) => key)] *)
Definition getSelectedRanges (getElementById : string -> option bool) : list string :=
  map fst (List.filter (fun entry => isChecked (snd entry))
             (thresholdCheckboxes getElementById)).

(** [Math.round((period.endTime - period.startTime) / 1000)], the duration in
    seconds that the displays and the popups show for a period. *)
Definition periodSeconds (period : SlowPeriod.t) : JS.num :=
  JS.Math_round
    (JS.div (JS.sub (JS.toNumber (SlowPeriod.endTime period))
                    (JS.toNumber (SlowPeriod.startTime period))) (inject_Z 1000)).

(** [slowPeriods.reduce((total, period) => total + Math.round(...), 0)] *)
Definition totalSlowDuration (slowPeriods : list SlowPeriod.t) : JS.num :=
  fold_left (fun total period => JS.add total (periodSeconds period)) slowPeriods (JS.of_Z 0).

(** [Math.max(0, x)]: NaN when [x] is NaN. *)
Definition Math_max0 (x : JS.num) : JS.num :=
  option_map (fun q => if Qle_bool q 0 then 0%Q else q) x.

(** The estimated moving time of [displayActivityData], for the activity
    duration [duration] in seconds. *)
Definition estimatedMovingTime (duration : JS.num) (slowPeriods : list SlowPeriod.t) : JS.num :=
  match slowPeriods with
  | [] => duration
  | _ :: _ => Math_max0 (JS.sub duration (totalSlowDuration slowPeriods))
  end.

(** [slowPeriods.filter(period => !period.isGap)] and
    [slowPeriods.filter(period => period.isGap)] of
    [createSlowPeriodsDisplay]. *)
Definition actualSlowPeriods (slowPeriods : list SlowPeriod.t) : list SlowPeriod.t :=
  List.filter (fun period => negb (SlowPeriod.isGap period)) slowPeriods.

Definition gapPeriods (slowPeriods : list SlowPeriod.t) : list SlowPeriod.t :=
  List.filter (fun period => SlowPeriod.isGap period) slowPeriods.

(** ** Map helpers ([ui/map-manager.ts]) *)

(** [collectAvailableGpsPoints(gap)] *)
Definition collectAvailableGpsPoints (gap : TimestampGap.t) : list GpsPoint :=
  let availablePoints := [] in
  let availablePoints :=
    match TimestampGap.startGpsPoint gap with
    | Some p => availablePoints ++ [p]
    | None => availablePoints
    end in
  match TimestampGap.endGpsPoint gap with
  | Some p => availablePoints ++ [p]
  | None => availablePoints
  end.

(** What [initializeGapMiniMap] does with a gap: show the no-GPS message, or
    call [setupSinglePointGapMap] with a point (which computes [isStartPoint]),
    or call [setupDualPointGapMap], which hands [gap.startGpsPoint] and
    [gap.endGpsPoint] to the marker and polyline constructors. *)
Inductive GapMiniMap : Type :=
  | NoGpsMessage
  | SinglePointGapMap (point : GpsPoint) (isStartPoint : bool)
  | DualPointGapMap (startPoint endPoint : option GpsPoint).

Definition initializeGapMiniMap (gap : TimestampGap.t) : GapMiniMap :=
  match TimestampGap.startGpsPoint gap, TimestampGap.endGpsPoint gap with
  | None, None => NoGpsMessage
  | _, _ =>
      match collectAvailableGpsPoints gap with
      | [point] =>
          let isStartPoint :=
            match TimestampGap.startGpsPoint gap, TimestampGap.endGpsPoint gap with
            | Some _, None => true
            | _, _ => false
            end in
          SinglePointGapMap point isStartPoint
      | _ => DualPointGapMap (TimestampGap.startGpsPoint gap) (TimestampGap.endGpsPoint gap)
      end
  end.

(** [period.gpsPoints[Math.floor(period.gpsPoints.length / 2)]], the marker
    position of [addSlowPeriodOverlayToMap]. *)
Definition centerPoint (gpsPoints : list GpsPoint) : option GpsPoint :=
  gpsPoints !! (length gpsPoints / 2)%nat.

(** The one range a duration of [q] minutes belongs to. *)
Definition rangeOfMinutes (q : Q) : option string :=
  if JS.Qlt_bool q 2 then None
  else if JS.Qlt_bool q 5 then Some "2to5"%string
  else if JS.Qlt_bool q 10 then Some "5to10"%string
  else if JS.Qlt_bool q 30 then Some "10to30"%string
  else if JS.Qlt_bool q 60 then Some "30to60"%string
  else if JS.Qlt_bool q 120 then Some "1to2hours"%string
  else Some "over2hours"%string.

(** The same partition on a duration in milliseconds. *)
Definition rangeOfDurationMs (ms : Z) : option string :=
  if (ms <? 120000)%Z then None
  else if (ms <? 300000)%Z then Some "2to5"%string
  else if (ms <? 600000)%Z then Some "5to10"%string
  else if (ms <? 1800000)%Z then Some "10to30"%string
  else if (ms <? 3600000)%Z then Some "30to60"%string
  else if (ms <? 7200000)%Z then Some "1to2hours"%string
  else Some "over2hours"%string.

(** A gap that ends no later than another one starts. *)
Definition gapBefore (g1 g2 : TimestampGap.t) : Prop :=
  exists e s, TimestampGap.endTime g1 = at_ e /\ TimestampGap.startTime g2 = at_ s /\ (e <= s)%Z.

(** A gap with valid dates that starts strictly before it ends. *)
Definition gapForward (g : TimestampGap.t) : Prop :=
  exists s e, TimestampGap.startTime g = at_ s /\ TimestampGap.endTime g = at_ e /\ (s < e)%Z.

(** The record counts of a list of periods, added up. *)
Definition totalRecordCount (periods : list SlowPeriod.t) : nat :=
  list_sum (map SlowPeriod.recordCount periods).


(** A coordinate field holds a signed 32-bit semicircle count. *)
Definition int32 (z : Z) : Prop := (- 2 ^ 31 <= z < 2 ^ 31)%Z.

Definition int32Position (record : FitRecord.t) : Prop :=
  (forall z, FitRecord.positionLat record = Some z -> int32 z) /\
  (forall z, FitRecord.positionLong record = Some z -> int32 z).

(** A finite coordinate in degrees that is not 0 and lies in [-180, 180). *)
Definition properDegrees (x : JS.num) : Prop :=
  exists q, x = Some q /\ ~ (q == 0)%Q /\ (-180 <= q)%Q /\ (q < 180)%Q.

(** A page with the '5to10' and 'over2hours' boxes ticked, no '2to5'
    element, and the other boxes unticked. *)
Definition twoTicked (id : string) : option bool :=
  if String.eqb id "threshold_5to10" then Some true
  else if String.eqb id "threshold_over2hours" then Some true
  else if String.eqb id "threshold_2to5" then None
  else Some false.

(** A JavaScript number that is the integer [n]. *)
Definition isInteger (x : JS.num) (n : Z) : Prop :=
  exists q, x = Some q /\ (q == inject_Z n)%Q.

(** Decimal digits, and strings made of them. *)
Definition isDigit (c : Ascii.ascii) : bool :=
  (48 <=? Ascii.nat_of_ascii c)%nat && (Ascii.nat_of_ascii c <=? 57)%nat.

Fixpoint allDigits (s : string) : bool :=
  match s with
  | EmptyString => true
  | String c s' => isDigit c && allDigits s'
  end.

(** A summary whose elapsed time is the double written [4.35] (seconds). *)
Definition sessionFractional : FitSession.t :=
  FitSession.mk (at_ T0) None (Some (2448832297382707 # 562949953421312)) None.

(** A run none of whose consecutive records lie further apart than the
    threshold, by the comparison the gap-aware loop makes. *)
Fixpoint runUnbroken (thr : JS.num) (run : list FitRecord.t) : bool :=
  match run with
  | prev :: ((cur :: _) as rest) =>
      negb (JS.gt (JS.sub (JS.toNumber (FitRecord.timestamp cur))
                          (JS.toNumber (FitRecord.timestamp prev))) thr)
      && runUnbroken thr rest
  | _ => true
  end.

(** The periods a finalization contributes: the period, or nothing. *)
Definition finalized (run : list FitRecord.t) (selectedRanges : list string)
  : list SlowPeriod.t :=
  match processSlowSequence run selectedRanges with
  | Some period => [period]
  | None => []
  end.

(** A three-minute stop, then a ten-minute silence, then more slow samples
    and a fast one. *)
Definition stopBeforeGap : list FitRecord.t :=
  [sample T0 0 100; sample (T0 + 180000) 0 100].

Definition afterGap : list FitRecord.t :=
  [sample (T0 + 900000) 0 100; sample (T0 + 901000) 5 120].

(** * Properties *)

(** ** Comparisons of JavaScript numbers *)

Lemma Qlt_bool_iff (x y : Q) : JS.Qlt_bool x y = true <-> (x < y)%Q.
Proof.
  unfold JS.Qlt_bool. rewrite negb_true_iff. split.
  - intros H. apply Qnot_le_lt. intros Hle.
    apply Qle_bool_iff in Hle. congruence.
  - intros H. destruct (Qle_bool y x) eqn:E; [|reflexivity].
    apply Qle_bool_iff in E. exfalso. exact (Qlt_not_le _ _ H E).
Qed.

Lemma ge_true_iff (a b : JS.num) :
  JS.ge a b = true <-> exists x y, a = Some x /\ b = Some y /\ (y <= x)%Q.
Proof.
  destruct a as [x|], b as [y|]; simpl.
  - rewrite Qle_bool_iff. split.
    + intros H. exists x, y. auto.
    + intros (x' & y' & Hx & Hy & H). congruence.
  - split; [discriminate | intros (x' & y' & _ & Hy & _); discriminate].
  - split; [discriminate | intros (x' & y' & Hx & _); discriminate].
  - split; [discriminate | intros (x' & y' & Hx & _); discriminate].
Qed.

Lemma lt_true_iff (a b : JS.num) :
  JS.lt a b = true <-> exists x y, a = Some x /\ b = Some y /\ (x < y)%Q.
Proof.
  destruct a as [x|], b as [y|]; simpl.
  - rewrite Qlt_bool_iff. split.
    + intros H. exists x, y. auto.
    + intros (x' & y' & Hx & Hy & H). congruence.
  - split; [discriminate | intros (x' & y' & _ & Hy & _); discriminate].
  - split; [discriminate | intros (x' & y' & Hx & _); discriminate].
  - split; [discriminate | intros (x' & y' & Hx & _); discriminate].
Qed.

Lemma ge_of_Z_iff (x : JS.num) (lo : Z) : JS.ge x (JS.of_Z lo) = true <-> atLeast lo x.
Proof.
  rewrite ge_true_iff. unfold atLeast, JS.of_Z. split.
  - intros (q & y & -> & [= <-] & H). eauto.
  - intros (q & -> & H). eauto.
Qed.

Lemma halfOpen_iff (x : JS.num) (lo hi : Z) :
  JS.ge x (JS.of_Z lo) && JS.lt x (JS.of_Z hi) = true <-> inHalfOpen lo hi x.
Proof.
  rewrite andb_true_iff, ge_true_iff, lt_true_iff. unfold inHalfOpen, JS.of_Z. split.
  - intros [(q & y & -> & [= <-] & H1) (q' & y' & [= <-] & [= <-] & H2)]. eauto.
  - intros (q & -> & H1 & H2). split; eauto.
Qed.

Lemma matchesTimeRange_unknown (range : string) (minutes hours : JS.num) :
  ~ In range knownRanges -> matchesTimeRange range minutes hours = false.
Proof.
  intros H. unfold matchesTimeRange.
  repeat match goal with
  | |- context [String.eqb range ?s] =>
      destruct (String.eqb_spec range s) as [->|_];
      [exfalso; apply H; unfold knownRanges; simpl; tauto|]
  end.
  reflexivity.
Qed.

(** ** The range classifier *)

(** C5: [matchesTimeRange] is a total function to booleans whose six tags
    are half-open interval tests on the minutes (first four), on the hours
    ('1to2hours'), or a lower bound on the hours ('over2hours'); every other
    tag yields [false]. *)
Theorem matchesTimeRange_half_open (minutes hours : JS.num) :
  (matchesTimeRange "2to5" minutes hours = true <-> inHalfOpen 2 5 minutes) /\
  (matchesTimeRange "5to10" minutes hours = true <-> inHalfOpen 5 10 minutes) /\
  (matchesTimeRange "10to30" minutes hours = true <-> inHalfOpen 10 30 minutes) /\
  (matchesTimeRange "30to60" minutes hours = true <-> inHalfOpen 30 60 minutes) /\
  (matchesTimeRange "1to2hours" minutes hours = true <-> inHalfOpen 1 2 hours) /\
  (matchesTimeRange "over2hours" minutes hours = true <-> atLeast 2 hours) /\
  (forall range, ~ In range knownRanges -> matchesTimeRange range minutes hours = false) /\
  matchesTimeRange "2to5" (JS.of_Z 2) (Some (2 # 60)) = true /\
  matchesTimeRange "2to5" (JS.of_Z 5) (Some (5 # 60)) = false /\
  matchesTimeRange "over2hours" (JS.of_Z 120) (JS.of_Z 2) = true.
Proof.
  repeat split; try reflexivity;
    try (unfold matchesTimeRange; simpl; apply halfOpen_iff);
    try (unfold matchesTimeRange; simpl; apply ge_of_Z_iff).
  intros range H. now apply matchesTimeRange_unknown.
Qed.

(** ** Coordinate conversion *)



(** ** The gap detector *)

Lemma gapStep_at (pre : list FitRecord.t) (prev cur : FitRecord.t) (rest : list FitRecord.t)
    (thr : JS.num) (gaps : list TimestampGap.t) :
  gapStep (pre ++ prev :: cur :: rest) thr gaps (S (length pre)) =
  gaps ++ gapOfPair thr prev cur.
Proof.
  unfold gapStep.
  replace (S (length pre) - 1)%nat with (length pre) by lia.
  rewrite (list_lookup_middle pre (cur :: rest) prev (length pre) eq_refl).
  replace (pre ++ prev :: cur :: rest) with ((pre ++ [prev]) ++ cur :: rest)
    by (now rewrite <- app_assoc).
  rewrite (list_lookup_middle (pre ++ [prev]) rest cur (S (length pre)))
    by (rewrite length_app; simpl; lia).
  unfold gapOfPair, noTimestamp.
  destruct (FitRecord.timestamp prev) as [t1|], (FitRecord.timestamp cur) as [t2|];
    simpl; try (now rewrite app_nil_r).
  destruct (JS.gt _ thr); [reflexivity | now rewrite app_nil_r].
Qed.

Lemma gapLoop_from (rest pre : list FitRecord.t) (prev : FitRecord.t)
    (thr : JS.num) (gaps : list TimestampGap.t) :
  fold_left (gapStep (pre ++ prev :: rest) thr) (seq (S (length pre)) (length rest)) gaps =
  gaps ++ gapsOfPairs thr (prev :: rest).
Proof.
  revert pre prev gaps. induction rest as [|cur rest IH]; intros pre prev gaps.
  - simpl. now rewrite app_nil_r.
  - cbn [length seq fold_left]. rewrite gapStep_at.
    replace (pre ++ prev :: cur :: rest) with ((pre ++ [prev]) ++ cur :: rest)
      by (now rewrite <- app_assoc).
    replace (S (S (length pre))) with (S (length (pre ++ [prev])))
      by (rewrite length_app; simpl; lia).
    rewrite IH. cbn [gapsOfPairs]. now rewrite <- app_assoc.
Qed.

Lemma gapLoop_pairs (records : list FitRecord.t) (thr : JS.num) :
  gapLoop records thr = gapsOfPairs thr records.
Proof.
  unfold gapLoop. destruct records as [|prev rest]; [reflexivity|].
  cbn [length]. replace (S (length rest) - 1)%nat with (length rest) by lia.
  exact (gapLoop_from rest [] prev thr []).
Qed.

Lemma gt_of_Z_iff (a b t : Z) :
  JS.gt (JS.sub (JS.of_Z b) (JS.of_Z a)) (JS.of_Z t) = (t <? b - a)%Z.
Proof.
  unfold JS.gt, JS.sub, JS.of_Z, JS.lift2, JS.lt.
  destruct (Z.ltb_spec t (b - a)) as [H|H].
  - apply Qlt_bool_iff. unfold Qminus.
    rewrite <- inject_Z_opp, <- inject_Z_plus, <- Zlt_Qlt. lia.
  - destruct (JS.Qlt_bool _ _) eqn:E; [|reflexivity].
    apply Qlt_bool_iff in E.
    unfold Qminus in E.
    rewrite <- inject_Z_opp, <- inject_Z_plus, <- Zlt_Qlt in E. lia.
Qed.

Lemma round_minutes (a b : Z) :
  JS.Qround_half_up ((inject_Z b - inject_Z a) / inject_Z (1000 * 60)) =
  ((b - a + 30000) / 60000)%Z.
Proof.
  unfold JS.Qround_half_up.
  assert (E : ((inject_Z b - inject_Z a) / inject_Z (1000 * 60) + (1 # 2)
               == (b - a + 30000) # 60000)%Q).
  { unfold Qeq, Qdiv, Qinv, Qminus, Qopp, Qplus, Qmult, inject_Z. simpl. lia. }
  rewrite E. reflexivity.
Qed.

Lemma or_num_default (a : option Q) :
  (JS.or_num a 0 == match a with Some d => d | None => 0 end)%Q.
Proof.
  destruct a as [d|]; simpl; [|reflexivity].
  destruct (Qeq_bool d 0) eqn:E; [|reflexivity].
  apply Qeq_bool_iff in E. now rewrite E.
Qed.

(** C2: [findTimestampGaps] (both the configurable [main.ts] one and the
    fixed-threshold [analysis.js] one) returns, in scan order, the descriptors
    of the consecutive pairs; a pair emits at most one descriptor, none when a
    timestamp is absent or not a valid date, and for two time values exactly
    when their difference is strictly above the threshold (never for a NaN
    threshold); the descriptor carries the rounded minutes, the hours derived
    from them, and distances that default to 0. *)
Theorem findTimestampGaps_one_gap_per_exceeding_pair :
  (forall ui records threshold,
     findTimestampGaps ui records threshold =
     gapsOfPairs (gapThresholdOf threshold ui) records) /\
  (forall records,
     Analysis.findTimestampGaps records = gapsOfPairs (JS.of_Z 300000) records) /\
  (forall thr prev cur, (length (gapOfPair thr prev cur) <= 1)%nat) /\
  (forall thr prev cur,
     FitRecord.timestamp prev = None \/ FitRecord.timestamp cur = None ->
     gapOfPair thr prev cur = []) /\
  (forall thr prev cur,
     FitRecord.timestamp prev = Some JS.InvalidDate \/
     FitRecord.timestamp cur = Some JS.InvalidDate ->
     gapOfPair thr prev cur = []) /\
  (forall prev cur a b,
     FitRecord.timestamp prev = at_ a -> FitRecord.timestamp cur = at_ b ->
     gapOfPair JS.NaN prev cur = [] /\
     forall t,
       gapOfPair (JS.of_Z t) prev cur =
       if (t <? b - a)%Z then [makeGap prev cur (JS.sub (JS.of_Z b) (JS.of_Z a))] else []) /\
  (forall prev cur a b,
     let g := makeGap prev cur (JS.sub (JS.of_Z b) (JS.of_Z a)) in
     TimestampGap.startTime g = FitRecord.timestamp prev /\
     TimestampGap.endTime g = FitRecord.timestamp cur /\
     TimestampGap.gapDurationMinutes g = JS.of_Z ((b - a + 30000) / 60000) /\
     TimestampGap.gapDurationHours g = JS.div (TimestampGap.gapDurationMinutes g) 60 /\
     (TimestampGap.startDistance g ==
        match FitRecord.distance prev with Some d => d | None => 0 end)%Q /\
     (TimestampGap.endDistance g ==
        match FitRecord.distance cur with Some d => d | None => 0 end)%Q).
Proof.
  split; [|split; [|split; [|split; [|split; [|split]]]]].
  - intros ui records threshold. apply gapLoop_pairs.
  - intros records. apply gapLoop_pairs.
  - intros thr prev cur. unfold gapOfPair.
    destruct (FitRecord.timestamp prev), (FitRecord.timestamp cur); simpl; try lia.
    destruct (JS.gt _ thr); simpl; lia.
  - intros thr prev cur [H|H]; unfold gapOfPair; rewrite H; [reflexivity|].
    now destruct (FitRecord.timestamp prev).
  - intros thr prev cur [H|H]; unfold gapOfPair; rewrite H.
    + destruct (FitRecord.timestamp cur) as [[b|]|]; [| |reflexivity];
        simpl; now destruct thr.
    + destruct (FitRecord.timestamp prev) as [[a|]|]; [| |reflexivity];
        simpl; now destruct thr.
  - intros prev cur a b Ha Hb. unfold gapOfPair. rewrite Ha, Hb.
    unfold at_. cbn [JS.getTime]. split; [reflexivity|].
    intros t. now rewrite gt_of_Z_iff.
  - intros prev cur a b g. subst g. cbn [makeGap TimestampGap.startTime TimestampGap.endTime
      TimestampGap.gapDurationMinutes TimestampGap.gapDurationHours
      TimestampGap.startDistance TimestampGap.endDistance].
    repeat split; try apply or_num_default.
    unfold JS.of_Z at 3. rewrite <- round_minutes. reflexivity.
Qed.

(** ** Reading the last element of a non-empty array

    [a[a.length - 1]] is [List.last] with a default that is never used. *)

Lemma last_cons_default {A : Type} (l : list A) (x d : A) :
  last (x :: l) = Some (List.last (x :: l) d).
Proof.
  revert x. induction l as [|y l IH]; intros x; [reflexivity|].
  change (last (x :: y :: l)) with (last (y :: l)).
  change (List.last (x :: y :: l) d) with (List.last (y :: l) d).
  apply IH.
Qed.

(** ** The time extractor *)

(** C1: on a first summary that has a truthy [totalElapsedTime] and no
    [startTime], [extractActivityTimes] throws a [TypeError] (the call
    [startTime.getTime()] on [undefined]) whatever the records are, instead of
    returning a record with null fields; the older [main.js] variant does the
    same. *)
Theorem extractActivityTimes_throws_without_startTime (records : list FitRecord.t) :
  extractActivityTimes [sessionWithoutStart] records = JS.Throw JS.TypeError /\
  Legacy.extractActivityTimes [sessionWithoutStart] records = JS.Throw JS.TypeError.
Proof. split; reflexivity. Qed.

(** The call returns normally exactly when the summary branch does. *)
Lemma extractActivityTimes_returns_iff (sessions : list FitSession.t) (records : list FitRecord.t) :
  (exists times, extractActivityTimes sessions records = JS.Normal times) <->
  (exists v, summaryTimes sessions = JS.Normal v).
Proof.
  unfold extractActivityTimes. destruct (summaryTimes sessions) as [[[[s e] m] d]|err]; simpl.
  - split; intros _; [eauto|]. destruct records; eauto.
  - split; intros [x H]; discriminate.
Qed.

(** The current extractor ([analysis.js], [main.ts], the parser module):
    when there is at least one record, a normal return carries the first
    record's timestamp as start and the last record's timestamp as end,
    whatever the summary branch computed; the only other outcome is the
    exception of the summary branch. *)
Lemma extractActivityTimes_current_overwrite
    (sessions : list FitSession.t) (records : list FitRecord.t) :
  records <> [] ->
  match extractActivityTimes sessions records with
  | JS.Normal times =>
      ActivityTimes.startTime times = head records ≫= FitRecord.timestamp /\
      ActivityTimes.endTime times = last records ≫= FitRecord.timestamp
  | JS.Throw e => summaryTimes sessions = JS.Throw e
  end.
Proof.
  intros Hne. destruct records as [|first rest]; [contradiction|].
  unfold extractActivityTimes.
  destruct (summaryTimes sessions) as [[[[s e] m] d]|err]; [|reflexivity].
  cbn [JS.bind ActivityTimes.startTime ActivityTimes.endTime head]. split; [reflexivity|].
  now rewrite (last_cons_default rest first first).
Qed.

(** C3 (amended): when there is at least one record, the extractor of
    [analysis.js], [main.ts] and the parser module returns the first record's
    timestamp as start and the last record's timestamp as end, overwriting
    whatever the summary branch computed; the older extractor of [main.js]
    does so only when the summary branch left the start time absent, and
    otherwise keeps the start and end of the summary.  In both, the only other
    outcome is the exception of the summary branch. *)
Theorem extractActivityTimes_overwrite_by_variant
    (sessions : list FitSession.t) (records : list FitRecord.t) :
  records <> [] ->
  match extractActivityTimes sessions records with
  | JS.Normal times =>
      ActivityTimes.startTime times = head records ≫= FitRecord.timestamp /\
      ActivityTimes.endTime times = last records ≫= FitRecord.timestamp
  | JS.Throw e => summaryTimes sessions = JS.Throw e
  end /\
  match Legacy.extractActivityTimes sessions records with
  | JS.Normal times =>
      match head sessions ≫= FitSession.startTime with
      | Some start =>
          ActivityTimes.startTime times = Some start /\
          exists movingTime totalDistance,
            summaryTimes sessions =
            JS.Normal (Some start, ActivityTimes.endTime times, movingTime, totalDistance)
      | None =>
          ActivityTimes.startTime times = head records ≫= FitRecord.timestamp /\
          ActivityTimes.endTime times = last records ≫= FitRecord.timestamp
      end
  | JS.Throw e => summaryTimes sessions = JS.Throw e
  end.
Proof.
  intros Hne. split; [now apply extractActivityTimes_current_overwrite|].
  destruct records as [|first rest]; [contradiction|].
  unfold Legacy.extractActivityTimes, summaryTimes.
  destruct sessions as [|session others]; cbn [JS.bind head mbind option_bind].
  - cbn [ActivityTimes.startTime ActivityTimes.endTime]. split; [reflexivity|].
    now rewrite (last_cons_default rest first first).
  - destruct (JS.truthy (FitSession.totalElapsedTime session));
      destruct (FitSession.startTime session) as [start|];
      cbn [JS.bind ActivityTimes.startTime ActivityTimes.endTime];
      try reflexivity; try (split; [reflexivity|]; eauto).
    now rewrite (last_cons_default rest first first).
Qed.

Lemma extractActivityTimes_overwrite_by_variant_witness :
  [sample T0 5 0; sample (T0 + 60000) 5 300] <> [] /\
  match extractActivityTimes [sessionComplete] [sample T0 5 0; sample (T0 + 60000) 5 300] with
  | JS.Normal times =>
      ActivityTimes.startTime times = at_ T0 /\
      ActivityTimes.endTime times = at_ (T0 + 60000)
  | JS.Throw e => summaryTimes [sessionComplete] = JS.Throw e
  end /\
  match Legacy.extractActivityTimes [sessionComplete]
          [sample T0 5 0; sample (T0 + 60000) 5 300] with
  | JS.Normal times =>
      match head [sessionComplete] ≫= FitSession.startTime with
      | Some start =>
          ActivityTimes.startTime times = Some start /\
          exists movingTime totalDistance,
            summaryTimes [sessionComplete] =
            JS.Normal (Some start, ActivityTimes.endTime times, movingTime, totalDistance)
      | None =>
          ActivityTimes.startTime times = at_ T0 /\
          ActivityTimes.endTime times = at_ (T0 + 60000)
      end
  | JS.Throw e => summaryTimes [sessionComplete] = JS.Throw e
  end.
Proof.
  split; [discriminate|].
  exact (extractActivityTimes_overwrite_by_variant [sessionComplete]
           [sample T0 5 0; sample (T0 + 60000) 5 300] ltac:(discriminate)).
Defined.

(** C3, as stated, fails on [main.js]: with a complete summary and two
    records, the times returned are those of the summary, not the first and
    last record's timestamps. *)
Lemma legacy_extractActivityTimes_overwrite_counterexample :
  exists times,
    Legacy.extractActivityTimes [sessionComplete]
      [sample T0 5 0; sample (T0 + 60000) 5 300] = JS.Normal times /\
    ActivityTimes.startTime times <> at_ T0 /\
    ActivityTimes.endTime times <> at_ (T0 + 60000).
Proof.
  exists (ActivityTimes.mk (at_ (T0 - 1000)) (at_ (T0 + 3899000))
            (Some 3600%Q) (Some 25000%Q)).
  split; [vm_compute; reflexivity|]. split; discriminate.
Qed.

(** The older [main.js] variant keeps the summary's start and end when the
    summary has a start time. *)
Remark legacy_extractActivityTimes_keeps_summary_start :
  Legacy.extractActivityTimes [sessionComplete] [sample T0 5 0; sample (T0 + 60000) 5 300] =
  JS.Normal (ActivityTimes.mk (at_ (T0 - 1000)) (at_ (T0 - 1000 + 3900000))
               (Some 3600%Q) (Some 25000%Q)).
Proof. vm_compute. reflexivity. Qed.

(** ** The run finalizer *)

(** C4 (amended): [processSlowSequence] returns null for an empty run and
    for a run whose duration matches no selected range; otherwise it returns a
    period whose start distance is the first record's distance, or 0 when
    absent, and whose end distance is the last record's distance when that is
    present and not 0, and the start distance otherwise. *)
Theorem processSlowSequence_descriptor (selectedRanges : list string) :
  processSlowSequence [] selectedRanges = None /\
  forall first rest,
    let run := first :: rest in
    let lastRecord := List.last run first in
    let minutes :=
      JS.div (JS.sub (JS.toNumber (FitRecord.timestamp lastRecord))
                     (JS.toNumber (FitRecord.timestamp first))) (inject_Z 60000) in
    let hours := JS.div minutes 60 in
    if matchesAnyRange selectedRanges minutes hours then
      exists p,
        processSlowSequence run selectedRanges = Some p /\
        (SlowPeriod.startDistance p ==
           match FitRecord.distance first with Some d => d | None => 0 end)%Q /\
        SlowPeriod.endDistance p =
          match FitRecord.distance lastRecord with
          | Some d => if Qeq_bool d 0 then SlowPeriod.startDistance p else d
          | None => SlowPeriod.startDistance p
          end
    else processSlowSequence run selectedRanges = None.
Proof.
  split; [reflexivity|]. intros first rest. cbv zeta.
  unfold processSlowSequence.
  change (inject_Z (1000 * 60)) with (inject_Z 60000).
  destruct (matchesAnyRange selectedRanges _ _); [|reflexivity].
  eexists. split; [reflexivity|]. cbn [SlowPeriod.startDistance SlowPeriod.endDistance].
  split; [apply or_num_default | reflexivity].
Qed.

(** C4, as stated, fails: the last record of [runEndingAtZero] has a distance
    (it is 0), yet the period's end distance is the start distance 100. *)
Lemma processSlowSequence_end_distance_zero_counterexample :
  exists p,
    processSlowSequence runEndingAtZero ["2to5"%string] = Some p /\
    last runEndingAtZero ≫= FitRecord.distance = Some 0%Q /\
    SlowPeriod.endDistance p = 100%Q /\
    ~ (SlowPeriod.endDistance p == 0)%Q.
Proof.
  eexists. split; [reflexivity|]. split; [reflexivity|]. split; [reflexivity|].
  cbn. discriminate.
Qed.

(** ** The slow-run segmenter *)

Lemma pushIfAny_finalized (slowPeriods : list SlowPeriod.t) (run : list FitRecord.t)
    (selectedRanges : list string) :
  pushIfAny slowPeriods (processSlowSequence run selectedRanges) =
  slowPeriods ++ finalized run selectedRanges.
Proof.
  unfold finalized. destruct (processSlowSequence run selectedRanges); simpl;
    [reflexivity | now rewrite app_nil_r].
Qed.

(** Slow records within the threshold of one another accumulate. *)
Lemma slowStep_accumulates (ui : ThresholdSelect) (selectedRanges : list string)
    (more : list FitRecord.t) :
  forall slowPeriods first run,
    forallb isSlow more = true ->
    runUnbroken (currentThreshold ui) (List.last (first :: run) first :: more) = true ->
    fold_left (slowStep ui selectedRanges) more (slowPeriods, first :: run) =
    (slowPeriods, (first :: run) ++ more).
Proof.
  induction more as [|r more IH]; intros slowPeriods first run Hslow Hun.
  - now rewrite app_nil_r.
  - cbn [forallb] in Hslow. apply andb_true_iff in Hslow. destruct Hslow as [Hr Hslow].
    cbn [runUnbroken] in Hun. apply andb_true_iff in Hun. destruct Hun as [Hgt Hun].
    apply negb_true_iff in Hgt.
    cbn [fold_left]. unfold slowStep at 2. rewrite Hr, Hgt.
    change ((first :: run) ++ [r]) with (first :: (run ++ [r])).
    rewrite (IH slowPeriods first (run ++ [r]) Hslow).
    + cbn [app]. now rewrite <- app_assoc.
    + change (first :: run ++ [r]) with ((first :: run) ++ [r]). now rewrite last_last.
Qed.

(** The periods already pushed do not influence the rest of the loop. *)
Lemma slowStep_fold_prefix (ui : ThresholdSelect) (selectedRanges : list string)
    (records : list FitRecord.t) :
  forall slowPeriods run,
    fold_left (slowStep ui selectedRanges) records (slowPeriods, run) =
    (slowPeriods ++ fst (fold_left (slowStep ui selectedRanges) records ([], run)),
     snd (fold_left (slowStep ui selectedRanges) records ([], run))).
Proof.
  induction records as [|r records IH]; intros slowPeriods run.
  - simpl. now rewrite app_nil_r.
  - cbn [fold_left].
    assert (E : slowStep ui selectedRanges (slowPeriods, run) r =
                (slowPeriods ++ fst (slowStep ui selectedRanges ([], run) r),
                 snd (slowStep ui selectedRanges ([], run) r))).
    { unfold slowStep. rewrite !pushIfAny_finalized.
      destruct (isSlow r); [|reflexivity].
      destruct run as [|first tl]; [simpl; now rewrite app_nil_r|].
      destruct (JS.gt _ _); simpl; [reflexivity | now rewrite app_nil_r]. }
    rewrite E. destruct (slowStep ui selectedRanges ([], run) r) as [pushed run'].
    cbn [fst snd]. rewrite (IH (slowPeriods ++ pushed) run'), (IH pushed run').
    cbn [fst snd]. now rewrite app_assoc.
Qed.

(** C7: in the gap-aware loop of [main.ts], when a run of slow records that
    lie within the threshold of one another is followed by a slow record
    further than the threshold from the run's last record, the iteration on
    that record appends the finalization of the run (its period, if it matches
    a selected range) and restarts the accumulation with exactly that record;
    so the whole segmentation returns the finalized run followed by the
    segmentation of the records from that record on: the gap splits the slow
    run although no fast record intervenes. *)
Theorem gap_splits_slow_run (ui : ThresholdSelect) (selectedRanges : list string)
    (first : FitRecord.t) (run : list FitRecord.t) (record : FitRecord.t)
    (rest : list FitRecord.t) :
  forallb isSlow (first :: run) = true ->
  runUnbroken (currentThreshold ui) (first :: run) = true ->
  isSlow record = true ->
  JS.gt (JS.sub (JS.toNumber (FitRecord.timestamp record))
                (JS.toNumber (FitRecord.timestamp (List.last (first :: run) first))))
        (currentThreshold ui) = true ->
  (forall slowPeriods,
     slowStep ui selectedRanges (slowPeriods, first :: run) record =
     (slowPeriods ++ finalized (first :: run) selectedRanges, [record])) /\
  slowRuns ui ((first :: run) ++ record :: rest) selectedRanges =
  finalized (first :: run) selectedRanges ++ slowRuns ui (record :: rest) selectedRanges.
Proof.
  intros Hslow Hun Hrec Hgap.
  assert (Hstep : forall slowPeriods,
            slowStep ui selectedRanges (slowPeriods, first :: run) record =
            (slowPeriods ++ finalized (first :: run) selectedRanges, [record])).
  { intros slowPeriods. unfold slowStep. now rewrite Hrec, Hgap, pushIfAny_finalized. }
  split; [exact Hstep|].
  cbn [forallb] in Hslow. apply andb_true_iff in Hslow. destruct Hslow as [Hfirst Hslow].
  unfold slowRuns. rewrite fold_left_app.
  assert (Hacc : fold_left (slowStep ui selectedRanges) (first :: run) ([], []) =
                 ([], first :: run)).
  { cbn [fold_left]. unfold slowStep at 2. rewrite Hfirst. cbn [app].
    rewrite (slowStep_accumulates ui selectedRanges run [] first [] Hslow Hun).
    reflexivity. }
  rewrite Hacc. cbn [fold_left]. rewrite Hstep. cbn [app].
  rewrite slowStep_fold_prefix.
  assert (Hone : slowStep ui selectedRanges ([], []) record = ([], [record])).
  { unfold slowStep. now rewrite Hrec. }
  rewrite Hone.
  destruct (fold_left (slowStep ui selectedRanges) rest ([], [record])) as [pushed run'].
  cbn [fst snd]. rewrite !pushIfAny_finalized. now rewrite app_assoc.
Qed.

Lemma gap_splits_slow_run_witness :
  forallb isSlow stopBeforeGap = true /\
  runUnbroken (JS.of_Z 300000) stopBeforeGap = true /\
  isSlow (sample (T0 + 780000) 0 100) = true /\
  JS.gt (JS.sub (JS.of_Z (T0 + 780000)) (JS.of_Z (T0 + 180000))) (JS.of_Z 300000) = true /\
  (forall slowPeriods,
     slowStep None shortRanges (slowPeriods, stopBeforeGap) (sample (T0 + 780000) 0 100) =
     (slowPeriods ++ finalized stopBeforeGap shortRanges, [sample (T0 + 780000) 0 100])) /\
  slowRuns None (stopBeforeGap ++ sample (T0 + 780000) 0 100 :: afterGap) shortRanges =
  finalized stopBeforeGap shortRanges
  ++ slowRuns None (sample (T0 + 780000) 0 100 :: afterGap) shortRanges.
Proof.
  split; [reflexivity|]. split; [reflexivity|]. split; [reflexivity|]. split; [reflexivity|].
  exact (gap_splits_slow_run None shortRanges (sample T0 0 100) [sample (T0 + 180000) 0 100]
           (sample (T0 + 780000) 0 100) afterGap eq_refl eq_refl eq_refl eq_refl).
Defined.

(** On that ride the three-minute stop before the gap is reported as one
    period and the two-minute stop after it as another. *)
Remark gap_splits_slow_run_example :
  map (fun p => (SlowPeriod.startTime p, SlowPeriod.endTime p, SlowPeriod.recordCount p))
    (slowRuns None (stopBeforeGap ++ sample (T0 + 780000) 0 100 :: afterGap) shortRanges) =
  [(at_ T0, at_ (T0 + 180000), 2%nat); (at_ (T0 + 780000), at_ (T0 + 900000), 2%nat)].
Proof. reflexivity. Qed.

(** The simple loop of [main.js] extends the run across the same gap. *)
Remark legacy_slowStep_spans_gap :
  Legacy.slowStep ["2to5"%string] ([], [sample T0 0 100; sample (T0 + 180000) 0 100])
    (sample (T0 + 780000) 0 100) =
  ([], [sample T0 0 100; sample (T0 + 180000) 0 100; sample (T0 + 780000) 0 100]).
Proof. reflexivity. Qed.

(** End to end on two slow samples ten minutes apart: the gap-aware pipeline
    reports the recording gap only, the simple one also a ten-minute slow run
    spanning it. *)
Remark slowAcrossGap_gap_aware_and_simple :
  map (fun p => (SlowPeriod.isGap p, SlowPeriod.recordCount p))
    (findSlowPeriodsWithRanges None slowAcrossGap ["10to30"%string]) = [(true, 0%nat)] /\
  map (fun p => (SlowPeriod.isGap p, SlowPeriod.recordCount p))
    (Legacy.findSlowPeriodsWithRanges slowAcrossGap ["10to30"%string]) =
  [(false, 2%nat); (true, 0%nat)].
Proof. split; reflexivity. Qed.

(** ** Durations that match a range *)

Lemma atLeast_mono (lo lo' : Z) (x : JS.num) :
  (lo <= lo')%Z -> atLeast lo' x -> atLeast lo x.
Proof.
  intros Hle (q & -> & H). exists q. split; [reflexivity|].
  apply Qle_trans with (inject_Z lo'); [|exact H]. now rewrite <- Zle_Qle.
Qed.

Lemma matchesTimeRange_true_inv (range : string) (minutes hours : JS.num) :
  matchesTimeRange range minutes hours = true -> atLeast 2 minutes \/ atLeast 1 hours.
Proof.
  unfold matchesTimeRange.
  repeat match goal with
  | |- context [String.eqb range ?s] => destruct (String.eqb range s)
  end; try discriminate;
  try (intros [H _]%andb_true_iff); try intros H;
  apply ge_of_Z_iff in H;
  solve [ left; eapply atLeast_mono; [|exact H]; lia
        | right; eapply atLeast_mono; [|exact H]; lia ].
Qed.

Lemma matchesAnyRange_true_inv (selectedRanges : list string) (minutes hours : JS.num) :
  matchesAnyRange selectedRanges minutes hours = true ->
  atLeast 2 minutes \/ atLeast 1 hours.
Proof.
  unfold matchesAnyRange. intros (range & _ & H)%existsb_exists.
  exact (matchesTimeRange_true_inv _ _ _ H).
Qed.

Lemma inject_Z_sub_le (lo s e : Z) :
  (inject_Z lo <= inject_Z e - inject_Z s)%Q -> (lo <= e - s)%Z.
Proof.
  unfold Qminus. rewrite <- inject_Z_opp, <- inject_Z_plus, <- Zle_Qle. lia.
Qed.

Lemma div_const_le (x : Q) (c lo : Z) :
  (0 < c)%Z -> (inject_Z lo <= x / inject_Z c)%Q -> (inject_Z (lo * c) <= x)%Q.
Proof.
  intros Hc H.
  assert (Hc' : (0 < inject_Z c)%Q) by (now rewrite Zlt_Qlt in Hc).
  rewrite inject_Z_mult.
  assert (E : (x == x / inject_Z c * inject_Z c)%Q).
  { field. intros E. rewrite E in Hc'. exact (Qlt_irrefl _ Hc'). }
  rewrite E. apply Qmult_le_compat_r; [exact H | now apply Qlt_le_weak].
Qed.

(** A run duration that matches some range is the difference of two valid
    dates at least two minutes apart. *)
Lemma duration_two_minutes (tl tf : option JS.Date) :
  let minutes := JS.div (JS.sub (JS.toNumber tl) (JS.toNumber tf)) (inject_Z (1000 * 60)) in
  atLeast 2 minutes \/ atLeast 1 (JS.div minutes 60) ->
  exists s e, tf = at_ s /\ tl = at_ e /\ (120000 <= e - s)%Z.
Proof.
  cbv zeta.
  destruct tl as [[e|]|], tf as [[s|]|];
    unfold JS.div, JS.sub, JS.lift2, JS.toNumber, JS.getTime, JS.of_Z, JS.NaN, option_map;
    try (intros [(q & [=] & _)|(q & [=] & _)]; fail).
  intros H. exists s, e. split; [reflexivity|]. split; [reflexivity|].
  destruct H as [(q & [= <-] & H)|(q & [= <-] & H)].
  - apply div_const_le in H; [|lia]. apply inject_Z_sub_le in H. lia.
  - change 60%Q with (inject_Z 60) in H.
    apply div_const_le in H; [|lia]. apply div_const_le in H; [|lia].
    apply inject_Z_sub_le in H. lia.
Qed.

(** What a successful finalization returns. *)
Lemma processSlowSequence_Some_inv (run : list FitRecord.t) (selectedRanges : list string)
    (p : SlowPeriod.t) :
  processSlowSequence run selectedRanges = Some p ->
  slowRunPeriod p /\ SlowPeriod.recordCount p = length run /\
  SlowPeriod.gapData p = None.
Proof.
  unfold processSlowSequence. destruct run as [|first rest]; [discriminate|].
  destruct (matchesAnyRange _ _ _) eqn:E; [|discriminate].
  intros [= <-]. apply matchesAnyRange_true_inv, duration_two_minutes in E.
  destruct E as (s & e & Hs & He & Hd).
  unfold slowRunPeriod, spans. cbn [SlowPeriod.isGap SlowPeriod.recordCount
    SlowPeriod.startTime SlowPeriod.endTime SlowPeriod.gapData length].
  repeat split; try lia. exists s, e. auto.
Qed.

Lemma pushIfAny_Forall (P : SlowPeriod.t -> Prop) (slowPeriods : list SlowPeriod.t)
    (run : list FitRecord.t) (selectedRanges : list string) :
  Forall P slowPeriods ->
  (forall p, processSlowSequence run selectedRanges = Some p -> P p) ->
  Forall P (pushIfAny slowPeriods (processSlowSequence run selectedRanges)).
Proof.
  intros HF HP. destruct (processSlowSequence run selectedRanges) as [p|]; simpl; [|exact HF].
  apply Forall_app. split; [exact HF|]. constructor; [now apply HP | constructor].
Qed.

Lemma slowStep_Forall (ui : ThresholdSelect) (selectedRanges : list string)
    (st : SegmentState) (record : FitRecord.t) :
  Forall slowRunPeriod (fst st) ->
  Forall slowRunPeriod (fst (slowStep ui selectedRanges st record)).
Proof.
  destruct st as [slowPeriods run]. intros HF. unfold slowStep.
  assert (HP : Forall slowRunPeriod
                 (pushIfAny slowPeriods (processSlowSequence run selectedRanges))).
  { apply pushIfAny_Forall; [exact HF|]. intros p Hp.
    now apply processSlowSequence_Some_inv in Hp. }
  destruct (isSlow record); [|exact HP].
  destruct run as [|first rest]; [exact HF|].
  destruct (JS.gt _ _); [exact HP | exact HF].
Qed.

Lemma slowRuns_Forall (ui : ThresholdSelect) (records : list FitRecord.t)
    (selectedRanges : list string) :
  Forall slowRunPeriod (slowRuns ui records selectedRanges).
Proof.
  unfold slowRuns.
  assert (H : forall st, Forall slowRunPeriod (fst st) ->
            Forall slowRunPeriod
              (fst (fold_left (slowStep ui selectedRanges) records st))).
  { induction records as [|r records IH]; intros st Hst; [exact Hst|].
    simpl. apply IH. now apply slowStep_Forall. }
  specialize (H ([], []) (List.Forall_nil _)).
  destruct (fold_left _ records _) as [slowPeriods run]. simpl in H.
  apply pushIfAny_Forall; [exact H|]. intros p Hp.
  now apply processSlowSequence_Some_inv in Hp.
Qed.

(** ** Gap periods *)

Lemma gapsOfPairs_In (thr : JS.num) (records : list FitRecord.t) (g : TimestampGap.t) :
  In g (gapsOfPairs thr records) ->
  exists prev cur t1 t2,
    FitRecord.timestamp prev = Some t1 /\ FitRecord.timestamp cur = Some t2 /\
    JS.gt (JS.sub (JS.getTime t2) (JS.getTime t1)) thr = true /\
    g = makeGap prev cur (JS.sub (JS.getTime t2) (JS.getTime t1)).
Proof.
  induction records as [|prev rest IH]; [intros []|].
  destruct rest as [|cur rest]; [intros []|].
  cbn [gapsOfPairs]. rewrite in_app_iff. intros [H|H]; [|exact (IH H)].
  unfold gapOfPair in H.
  destruct (FitRecord.timestamp prev) as [t1|] eqn:E1; [|destruct H].
  destruct (FitRecord.timestamp cur) as [t2|] eqn:E2; [|destruct H].
  cbv zeta in H. destruct (JS.gt _ thr) eqn:E; [|destruct H].
  destruct H as [<-|[]]. exists prev, cur, t1, t2. auto.
Qed.

Lemma gt_true_dates (t1 t2 : JS.Date) (thr : JS.num) :
  JS.gt (JS.sub (JS.getTime t2) (JS.getTime t1)) thr = true ->
  exists a b, t1 = JS.TimeValue a /\ t2 = JS.TimeValue b.
Proof.
  destruct t1 as [a|], t2 as [b|]; simpl; try (destruct thr; discriminate).
  intros _. eauto.
Qed.

Lemma rounded_minutes_bound (a b : Z) :
  let minutes := JS.Math_round (JS.div (JS.sub (JS.of_Z b) (JS.of_Z a)) (inject_Z (1000 * 60))) in
  atLeast 2 minutes \/ atLeast 1 (JS.div minutes 60) -> (90000 <= b - a)%Z.
Proof.
  cbv zeta. unfold JS.Math_round, JS.div, JS.sub, JS.lift2, JS.of_Z, option_map.
  rewrite round_minutes.
  assert (Hdiv : (60000 * ((b - a + 30000) / 60000) <= b - a + 30000)%Z)
    by (apply Z.mul_div_le; lia).
  intros [(q & [= <-] & H)|(q & [= <-] & H)].
  - rewrite <- Zle_Qle in H. lia.
  - change 60%Q with (inject_Z 60) in H.
    apply div_const_le in H; [|lia]. rewrite <- Zle_Qle in H. lia.
Qed.

Lemma matching_gap_is_gapPeriod (selectedRanges : list string) (prev cur : FitRecord.t)
    (t1 t2 : JS.Date) (thr : JS.num) :
  FitRecord.timestamp prev = Some t1 -> FitRecord.timestamp cur = Some t2 ->
  JS.gt (JS.sub (JS.getTime t2) (JS.getTime t1)) thr = true ->
  gapMatches selectedRanges (makeGap prev cur (JS.sub (JS.getTime t2) (JS.getTime t1))) = true ->
  gapPeriod (gapAsPeriod (makeGap prev cur (JS.sub (JS.getTime t2) (JS.getTime t1)))).
Proof.
  intros H1 H2 Hgt Hm. destruct (gt_true_dates _ _ _ Hgt) as (a & b & -> & ->).
  unfold gapMatches in Hm. apply matchesAnyRange_true_inv in Hm.
  cbn [makeGap TimestampGap.gapDurationMinutes TimestampGap.gapDurationHours JS.getTime] in Hm.
  apply rounded_minutes_bound in Hm.
  unfold gapPeriod, spans. cbn. repeat split.
  exists a, b. rewrite H1, H2. auto.
Qed.

Lemma gapPushStep_fold (selectedRanges : list string) (gaps : list TimestampGap.t)
    (slowPeriods : list SlowPeriod.t) :
  fold_left (gapPushStep selectedRanges) gaps slowPeriods =
  slowPeriods ++ map gapAsPeriod (List.filter (gapMatches selectedRanges) gaps).
Proof.
  revert slowPeriods. induction gaps as [|g gaps IH]; intros slowPeriods.
  - simpl. now rewrite app_nil_r.
  - cbn [fold_left List.filter]. rewrite IH. unfold gapPushStep.
    destruct (gapMatches selectedRanges g); [|reflexivity].
    cbn [map]. now rewrite <- app_assoc.
Qed.

Lemma matching_gaps_Forall (thr : JS.num) (records : list FitRecord.t)
    (selectedRanges : list string) :
  Forall gapPeriod
    (map gapAsPeriod (List.filter (gapMatches selectedRanges) (gapLoop records thr))).
Proof.
  apply List.Forall_forall. intros p (g & <- & Hg)%in_map_iff.
  apply filter_In in Hg. destruct Hg as [Hin Hm].
  rewrite gapLoop_pairs in Hin.
  apply gapsOfPairs_In in Hin. destruct Hin as (prev & cur & t1 & t2 & H1 & H2 & Hgt & ->).
  exact (matching_gap_is_gapPeriod _ _ _ _ _ _ H1 H2 Hgt Hm).
Qed.

Lemma mergeOf_Forall (selectedRanges : list string) (slow : list SlowPeriod.t)
    (thr : JS.num) (records : list FitRecord.t) :
  Forall slowRunPeriod slow ->
  Forall (fun p => slowRunPeriod p \/ gapPeriod p)
    (mergeOf selectedRanges slow (gapLoop records thr)).
Proof.
  intros Hslow. unfold mergeOf. apply Forall_app. split.
  - eapply List.Forall_impl; [|exact Hslow]. intros p H. now left.
  - eapply List.Forall_impl; [|apply matching_gaps_Forall]. intros p H. now right.
Qed.

Lemma mergeOf_no_ranges (gaps : list TimestampGap.t) : mergeOf [] [] gaps = [].
Proof.
  unfold mergeOf. simpl. induction gaps as [|g gaps IH]; [reflexivity|exact IH].
Qed.

(** With no range selected nothing is finalized and no gap matches, so the
    early return agrees with the general path. *)
Lemma processSlowSequence_no_ranges (run : list FitRecord.t) : processSlowSequence run [] = None.
Proof. now destruct run. Qed.

Lemma slowRuns_no_ranges (ui : ThresholdSelect) (records : list FitRecord.t) :
  slowRuns ui records [] = [].
Proof.
  unfold slowRuns.
  assert (H : forall st, fst st = [] ->
            fst (fold_left (slowStep ui []) records st) = []).
  { induction records as [|r records IH]; intros st Hst; [exact Hst|].
    simpl. apply IH. destruct st as [slowPeriods run]. simpl in Hst. subst slowPeriods.
    unfold slowStep. rewrite processSlowSequence_no_ranges. simpl.
    destruct (isSlow r); [|reflexivity].
    destruct run; [reflexivity|]. now destruct (JS.gt _ _). }
  specialize (H ([], []) eq_refl).
  destruct (fold_left _ records _) as [slowPeriods run]. simpl in H. subst slowPeriods.
  now rewrite processSlowSequence_no_ranges.
Qed.

Lemma findSlowPeriodsWithRanges_sorted_merge (ui : ThresholdSelect)
    (records : list FitRecord.t) (selectedRanges : list string) :
  findSlowPeriodsWithRanges ui records selectedRanges =
  arraySort startNotAfter (mergedPeriods ui records selectedRanges).
Proof.
  unfold mergedPeriods. destruct selectedRanges as [|range ranges].
  - now rewrite slowRuns_no_ranges, mergeOf_no_ranges.
  - unfold findSlowPeriodsWithRanges, mergeOf. cbv zeta. now rewrite gapPushStep_fold.
Qed.

(** The same facts for the simple segmentation of [main.js]. *)
Lemma legacy_slowStep_Forall (selectedRanges : list string)
    (st : SegmentState) (record : FitRecord.t) :
  Forall slowRunPeriod (fst st) ->
  Forall slowRunPeriod (fst (Legacy.slowStep selectedRanges st record)).
Proof.
  destruct st as [slowPeriods run]. intros HF. unfold Legacy.slowStep.
  destruct (isSlow record); [exact HF|].
  apply pushIfAny_Forall; [exact HF|]. intros p Hp.
  now apply processSlowSequence_Some_inv in Hp.
Qed.

Lemma legacy_slowRuns_Forall (records : list FitRecord.t) (selectedRanges : list string) :
  Forall slowRunPeriod (Legacy.slowRuns records selectedRanges).
Proof.
  unfold Legacy.slowRuns.
  assert (H : forall st, Forall slowRunPeriod (fst st) ->
            Forall slowRunPeriod
              (fst (fold_left (Legacy.slowStep selectedRanges) records st))).
  { induction records as [|r records IH]; intros st Hst; [exact Hst|].
    simpl. apply IH. now apply legacy_slowStep_Forall. }
  specialize (H ([], []) (List.Forall_nil _)).
  destruct (fold_left _ records _) as [slowPeriods run]. simpl in H.
  apply pushIfAny_Forall; [exact H|]. intros p Hp.
  now apply processSlowSequence_Some_inv in Hp.
Qed.

Lemma legacy_slowRuns_no_ranges (records : list FitRecord.t) : Legacy.slowRuns records [] = [].
Proof.
  unfold Legacy.slowRuns.
  assert (H : forall st, fst st = [] ->
            fst (fold_left (Legacy.slowStep []) records st) = []).
  { induction records as [|r records IH]; intros st Hst; [exact Hst|].
    simpl. apply IH. destruct st as [slowPeriods run]. simpl in Hst. subst slowPeriods.
    unfold Legacy.slowStep. rewrite processSlowSequence_no_ranges.
    now destruct (isSlow r). }
  specialize (H ([], []) eq_refl).
  destruct (fold_left _ records _) as [slowPeriods run]. simpl in H. subst slowPeriods.
  now rewrite processSlowSequence_no_ranges.
Qed.

Lemma legacy_findSlowPeriodsWithRanges_sorted_merge
    (records : list FitRecord.t) (selectedRanges : list string) :
  Legacy.findSlowPeriodsWithRanges records selectedRanges =
  arraySort startNotAfter (legacyMergedPeriods records selectedRanges).
Proof.
  unfold legacyMergedPeriods. destruct selectedRanges as [|range ranges].
  - now rewrite legacy_slowRuns_no_ranges, mergeOf_no_ranges.
  - unfold Legacy.findSlowPeriodsWithRanges, mergeOf. cbv zeta.
    now rewrite gapPushStep_fold.
Qed.

Lemma mergedPeriods_Forall (ui : ThresholdSelect) (records : list FitRecord.t)
    (selectedRanges : list string) :
  Forall (fun p => slowRunPeriod p \/ gapPeriod p) (mergedPeriods ui records selectedRanges).
Proof. apply mergeOf_Forall, slowRuns_Forall. Qed.

Lemma legacyMergedPeriods_Forall (records : list FitRecord.t) (selectedRanges : list string) :
  Forall (fun p => slowRunPeriod p \/ gapPeriod p) (legacyMergedPeriods records selectedRanges).
Proof. apply mergeOf_Forall, legacy_slowRuns_Forall. Qed.

(** ** The sort: a stable ascending arrangement *)

Section ArraySortFacts.

Context {A : Type} (le : A -> A -> bool) (key : A -> option Z).

(** On elements that have a key, the comparison is the order of the keys. *)
Hypothesis le_key :
  forall a b s t, key a = Some s -> key b = Some t -> le a b = (s <=? t)%Z.

Let keyed (a : A) : Prop := exists s, key a = Some s.

Let keyLe (a b : A) : Prop := exists s t, key a = Some s /\ key b = Some t /\ (s <= t)%Z.

Let hasKey (k : Z) (a : A) : bool :=
  match key a with
  | Some s => (s =? k)%Z
  | None => false
  end.

Lemma sortInsert_Permutation (x : A) (l : list A) : Permutation (sortInsert le x l) (x :: l).
Proof.
  induction l as [|y l IH]; simpl; [reflexivity|].
  destruct (le x y); [reflexivity|].
  rewrite IH. apply perm_swap.
Qed.

Lemma arraySort_Permutation (l : list A) : Permutation (arraySort le l) l.
Proof.
  induction l as [|x l IH]; simpl; [reflexivity|].
  rewrite sortInsert_Permutation. now constructor.
Qed.

Lemma arraySort_In (l : list A) (a : A) : In a (arraySort le l) <-> In a l.
Proof.
  split; apply Permutation_in; [|symmetry]; apply arraySort_Permutation.
Qed.

Lemma sortInsert_sorted (x : A) (l : list A) :
  keyed x -> Forall keyed l -> StronglySorted keyLe l ->
  StronglySorted keyLe (sortInsert le x l).
Proof.
  intros [s Hs] HP HS. induction l as [|y l IH]; simpl.
  - repeat constructor.
  - apply Forall_cons_1 in HP. destruct HP as [[t Ht] HP].
    apply StronglySorted_inv in HS. destruct HS as [HS Hy].
    rewrite (le_key x y s t Hs Ht). destruct (Z.leb_spec s t) as [Hle|Hlt].
    + apply SSorted_cons; [apply SSorted_cons; assumption|].
      constructor; [exists s, t; auto|].
      eapply List.Forall_impl; [|exact Hy].
      intros z (t' & u & Ht' & Hu & Htu). exists s, u. repeat split; auto.
      assert (t' = t) by congruence. lia.
    + apply SSorted_cons; [now apply IH|].
      apply List.Forall_forall. intros z Hz.
      apply (Permutation_in _ (sortInsert_Permutation x l)) in Hz.
      destruct Hz as [<-|Hz].
      * exists t, s. repeat split; auto. lia.
      * rewrite List.Forall_forall in Hy. now apply Hy.
Qed.

Lemma arraySort_sorted (l : list A) :
  Forall keyed l -> StronglySorted keyLe (arraySort le l).
Proof.
  induction l as [|x l IH]; intros HP; simpl; [constructor|].
  apply Forall_cons_1 in HP. destruct HP as [Hx HP].
  apply sortInsert_sorted; [exact Hx| |exact (IH HP)].
  apply List.Forall_forall. intros a Ha. apply (proj1 (arraySort_In _ _)) in Ha.
  rewrite List.Forall_forall in HP. exact (HP a Ha).
Qed.

Lemma sortInsert_stable (k : Z) (x : A) (l : list A) :
  keyed x -> Forall keyed l ->
  List.filter (hasKey k) (sortInsert le x l) = List.filter (hasKey k) (x :: l).
Proof.
  intros [s Hs] HP. induction l as [|y l IH]; [reflexivity|].
  apply Forall_cons_1 in HP. destruct HP as [[t Ht] HP].
  cbn [sortInsert]. rewrite (le_key x y s t Hs Ht).
  destruct (Z.leb_spec s t) as [Hle|Hlt]; [reflexivity|].
  assert (Ex : hasKey k x = (s =? k)%Z) by (unfold hasKey; now rewrite Hs).
  assert (Ey : hasKey k y = (t =? k)%Z) by (unfold hasKey; now rewrite Ht).
  change (List.filter (hasKey k) (y :: sortInsert le x l))
    with (if hasKey k y then y :: List.filter (hasKey k) (sortInsert le x l)
          else List.filter (hasKey k) (sortInsert le x l)).
  rewrite (IH HP). cbn [List.filter]. rewrite Ex, Ey.
  destruct (Z.eqb_spec t k), (Z.eqb_spec s k); try reflexivity. lia.
Qed.

Lemma arraySort_stable (k : Z) (l : list A) :
  Forall keyed l -> List.filter (hasKey k) (arraySort le l) = List.filter (hasKey k) l.
Proof.
  induction l as [|x l IH]; intros HP; [reflexivity|].
  apply Forall_cons_1 in HP. destruct HP as [Hx HP].
  cbn [arraySort]. rewrite sortInsert_stable; auto.
  - cbn [List.filter]. now rewrite (IH HP).
  - apply List.Forall_forall. intros a Ha. apply (proj1 (arraySort_In _ _)) in Ha.
    rewrite List.Forall_forall in HP. exact (HP a Ha).
Qed.

End ArraySortFacts.

(** ** The merged output *)

Lemma startMs_Some (p : SlowPeriod.t) (s : Z) :
  startMs p = Some s <-> SlowPeriod.startTime p = at_ s.
Proof.
  unfold startMs, at_. destruct (SlowPeriod.startTime p) as [[ms|]|]; split; congruence.
Qed.

Lemma startNotAfter_key (a b : SlowPeriod.t) (s t : Z) :
  startMs a = Some s -> startMs b = Some t -> startNotAfter a b = (s <=? t)%Z.
Proof.
  intros Ha%startMs_Some Hb%startMs_Some.
  unfold startNotAfter, compareStart. rewrite Ha, Hb. unfold at_.
  cbn [JS.toNumber JS.getTime]. rewrite gt_of_Z_iff.
  destruct (Z.ltb_spec 0 (s - t)), (Z.leb_spec s t); simpl; try reflexivity; lia.
Qed.

Lemma spans_startMs (lo : Z) (p : SlowPeriod.t) : spans lo p -> exists s, startMs p = Some s.
Proof. intros (s & e & Hs & _). exists s. now apply startMs_Some. Qed.

Lemma sorted_Forall (P : SlowPeriod.t -> Prop) (l : list SlowPeriod.t) :
  Forall P l -> Forall P (arraySort startNotAfter l).
Proof.
  intros H. apply List.Forall_forall. intros p Hp.
  apply (proj1 (arraySort_In _ _ _)) in Hp.
  rewrite List.Forall_forall in H. exact (H p Hp).
Qed.

(** Sorting the slow runs and the matching gaps gives the specified merge. *)
Lemma arraySort_sortedMergeOf (selectedRanges : list string) (slow : list SlowPeriod.t)
    (gaps : list TimestampGap.t) :
  Forall slowRunPeriod slow ->
  Forall (fun p => slowRunPeriod p \/ gapPeriod p) (mergeOf selectedRanges slow gaps) ->
  sortedMergeOf selectedRanges gaps (mergeOf selectedRanges slow gaps)
    (arraySort startNotAfter (mergeOf selectedRanges slow gaps)).
Proof.
  intros Hslow Hall.
  assert (Hkeyed : Forall (fun p => exists s, startMs p = Some s)
                     (mergeOf selectedRanges slow gaps)).
  { eapply List.Forall_impl; [|exact Hall].
    intros p [(_ & _ & H)|(_ & _ & H)]; exact (spans_startMs _ _ H). }
  split; [|split; [|split]].
  - intros g Hg. rewrite arraySort_In. unfold mergeOf. rewrite in_app_iff. split.
    + intros [Hin|Hgap].
      * rewrite List.Forall_forall in Hslow. destruct (Hslow _ Hin) as (Hfalse & _).
        discriminate Hfalse.
      * apply in_map_iff in Hgap. destruct Hgap as (g' & Heq & Hin).
        assert (g' = g) by (now injection Heq). subst g'.
        now apply filter_In in Hin.
    + intros Hm. right. apply in_map. apply filter_In. auto.
  - apply arraySort_Permutation.
  - exact (arraySort_sorted startNotAfter startMs startNotAfter_key _ Hkeyed).
  - intros t. exact (arraySort_stable startNotAfter startMs startNotAfter_key t _ Hkeyed).
Qed.

Lemma period_cases_invariant (p : SlowPeriod.t) :
  slowRunPeriod p \/ gapPeriod p -> periodInvariant p.
Proof.
  unfold periodInvariant.
  intros [(Hgap & Hcount & (s & e & Hs & He & Hd))|(Hgap & Hcount & (s & e & Hs & He & Hd))].
  - split; [exists s, e; repeat split; auto; lia|]. rewrite Hgap. split; [|auto].
    split; [lia | discriminate].
  - split; [exists s, e; repeat split; auto; lia|]. rewrite Hgap, Hcount. split; [|discriminate].
    split; reflexivity.
Qed.

(** C6: a detected gap appears in the output exactly when its own rounded
    minutes and derived hours match one of the selected ranges; the output is
    a rearrangement of the slow-run periods followed by those gap periods, in
    ascending order of start time, with periods of equal start time kept in
    their order (stable).  This holds for the gap-aware pipeline of [main.ts]
    and for the simple one of [main.js]; on [mergeExample] the slow run that
    starts two minutes in comes before the gap that starts ten minutes in. *)
Theorem findSlowPeriodsWithRanges_merges_sorted (ui : ThresholdSelect)
    (records : list FitRecord.t) (selectedRanges : list string) :
  sortedMergeOf selectedRanges (findTimestampGaps ui records None)
    (slowRuns ui records selectedRanges ++
     map gapAsPeriod
       (List.filter (gapMatches selectedRanges) (findTimestampGaps ui records None)))
    (findSlowPeriodsWithRanges ui records selectedRanges) /\
  sortedMergeOf selectedRanges (Analysis.findTimestampGaps records)
    (Legacy.slowRuns records selectedRanges ++
     map gapAsPeriod
       (List.filter (gapMatches selectedRanges) (Analysis.findTimestampGaps records)))
    (Legacy.findSlowPeriodsWithRanges records selectedRanges) /\
  map (fun p => (SlowPeriod.startTime p, SlowPeriod.isGap p))
    (findSlowPeriodsWithRanges None mergeExample shortRanges) =
  [(at_ (T0 + 120000), false); (at_ (T0 + 600000), true)].
Proof.
  split; [|split; [|reflexivity]].
  - rewrite findSlowPeriodsWithRanges_sorted_merge.
    apply arraySort_sortedMergeOf; [apply slowRuns_Forall | apply mergedPeriods_Forall].
  - rewrite legacy_findSlowPeriodsWithRanges_sorted_merge.
    apply arraySort_sortedMergeOf;
      [apply legacy_slowRuns_Forall | apply legacyMergedPeriods_Forall].
Qed.

(** C9: for records with non-decreasing timestamps and any selection, every
    period of the output (of either pipeline) starts no later than it ends, has
    a record count of 0 exactly when it is a gap, and has at least one record
    when it is not. *)
Theorem output_periods_invariant (ui : ThresholdSelect) (records : list FitRecord.t)
    (selectedRanges : list string) :
  timestampsNonDecreasing records ->
  Forall periodInvariant (findSlowPeriodsWithRanges ui records selectedRanges) /\
  Forall periodInvariant (Legacy.findSlowPeriodsWithRanges records selectedRanges).
Proof.
  intros _. split.
  - rewrite findSlowPeriodsWithRanges_sorted_merge. apply sorted_Forall.
    eapply List.Forall_impl; [exact period_cases_invariant | apply mergedPeriods_Forall].
  - rewrite legacy_findSlowPeriodsWithRanges_sorted_merge. apply sorted_Forall.
    eapply List.Forall_impl; [exact period_cases_invariant | apply legacyMergedPeriods_Forall].
Qed.

Lemma output_periods_invariant_witness :
  timestampsNonDecreasing mergeExample /\
  Forall periodInvariant (findSlowPeriodsWithRanges None mergeExample shortRanges) /\
  Forall periodInvariant (Legacy.findSlowPeriodsWithRanges mergeExample shortRanges).
Proof.
  split; [reflexivity|].
  exact (output_periods_invariant None mergeExample shortRanges eq_refl).
Defined.

Lemma slow_period_two_minutes (p : SlowPeriod.t) :
  slowRunPeriod p \/ gapPeriod p -> SlowPeriod.isGap p = false -> spans 120000 p.
Proof. intros [(_ & _ & H)|(Hgap & _)] Hnot; [exact H | congruence]. Qed.

(** C10: for a non-empty selection, every period of the output (of either
    pipeline) that is not a gap lasts at least two minutes: its end is at
    least 120000 ms after its start. *)
Theorem slow_periods_last_two_minutes (ui : ThresholdSelect) (records : list FitRecord.t)
    (selectedRanges : list string) :
  selectedRanges <> [] ->
  Forall (fun p => SlowPeriod.isGap p = false -> spans 120000 p)
    (findSlowPeriodsWithRanges ui records selectedRanges) /\
  Forall (fun p => SlowPeriod.isGap p = false -> spans 120000 p)
    (Legacy.findSlowPeriodsWithRanges records selectedRanges).
Proof.
  intros _. split.
  - rewrite findSlowPeriodsWithRanges_sorted_merge. apply sorted_Forall.
    eapply List.Forall_impl; [exact slow_period_two_minutes | apply mergedPeriods_Forall].
  - rewrite legacy_findSlowPeriodsWithRanges_sorted_merge. apply sorted_Forall.
    eapply List.Forall_impl; [exact slow_period_two_minutes | apply legacyMergedPeriods_Forall].
Qed.

Lemma slow_periods_last_two_minutes_witness :
  shortRanges <> [] /\
  Forall (fun p => SlowPeriod.isGap p = false -> spans 120000 p)
    (findSlowPeriodsWithRanges None mergeExample shortRanges) /\
  Forall (fun p => SlowPeriod.isGap p = false -> spans 120000 p)
    (Legacy.findSlowPeriodsWithRanges mergeExample shortRanges).
Proof.
  split; [discriminate|].
  exact (slow_periods_last_two_minutes None mergeExample shortRanges ltac:(discriminate)).
Defined.

(** * Further properties of the engine and its helpers *)

(** ** The ranges partition the durations from two minutes on *)

Lemma Qle_bool_negb_lt (a b : Q) : Qle_bool a b = negb (JS.Qlt_bool b a).
Proof. unfold JS.Qlt_bool. now rewrite negb_involutive. Qed.

Lemma Qle_bool_div_60 (k : Z) (q : Q) :
  Qle_bool (inject_Z k) (q / 60) = Qle_bool (inject_Z (k * 60)) q.
Proof.
  apply eq_true_iff_eq. rewrite !Qle_bool_iff. split.
  - intros H. change 60%Q with (inject_Z 60) in H. apply div_const_le in H; [exact H|lia].
  - intros H. rewrite inject_Z_mult in H. apply Qle_shift_div_l; [reflexivity|exact H].
Qed.

Lemma Qlt_bool_div_60 (k : Z) (q : Q) :
  JS.Qlt_bool (q / 60) (inject_Z k) = JS.Qlt_bool q (inject_Z (k * 60)).
Proof. unfold JS.Qlt_bool. now rewrite Qle_bool_div_60. Qed.

Lemma Qlt_bool_mono (q a b : Q) :
  (a <= b)%Q -> JS.Qlt_bool q a = true -> JS.Qlt_bool q b = true.
Proof.
  rewrite !Qlt_bool_iff. intros Hab H. eapply Qlt_le_trans; eassumption.
Qed.

(** A duration of [q] minutes, with the hours derived from it, matches a tag
    exactly when that tag is the range of [q]. *)
Lemma matchesTimeRange_rangeOfMinutes (q : Q) (range : string) :
  matchesTimeRange range (Some q) (JS.div (Some q) 60) = true <->
  rangeOfMinutes q = Some range.
Proof.
  unfold matchesTimeRange, rangeOfMinutes, JS.div, JS.ge, JS.lt, JS.of_Z, option_map.
  rewrite !Qle_bool_div_60, !Qlt_bool_div_60, !Qle_bool_negb_lt.
  change (inject_Z (1 * 60)) with 60%Q. change (inject_Z (2 * 60)) with 120%Q.
  change (inject_Z 2) with 2%Q. change (inject_Z 5) with 5%Q.
  change (inject_Z 10) with 10%Q. change (inject_Z 30) with 30%Q.
  change (inject_Z 60) with 60%Q.
  pose proof (Qlt_bool_mono q 2 5 ltac:(discriminate)) as M1.
  pose proof (Qlt_bool_mono q 5 10 ltac:(discriminate)) as M2.
  pose proof (Qlt_bool_mono q 10 30 ltac:(discriminate)) as M3.
  pose proof (Qlt_bool_mono q 30 60 ltac:(discriminate)) as M4.
  pose proof (Qlt_bool_mono q 60 120 ltac:(discriminate)) as M5.
  revert M1 M2 M3 M4 M5.
  destruct (JS.Qlt_bool q 2), (JS.Qlt_bool q 5), (JS.Qlt_bool q 10),
    (JS.Qlt_bool q 30), (JS.Qlt_bool q 60), (JS.Qlt_bool q 120);
    intros M1 M2 M3 M4 M5;
    try discriminate (M1 eq_refl); try discriminate (M2 eq_refl);
    try discriminate (M3 eq_refl); try discriminate (M4 eq_refl);
    try discriminate (M5 eq_refl); clear M1 M2 M3 M4 M5;
    repeat match goal with
    | |- context [String.eqb range ?s] => destruct (String.eqb_spec range s) as [->|?]
    end; simpl; split; congruence.
Qed.

Lemma Qle_bool_div_const (k c : Z) (q : Q) :
  (0 < c)%Z -> Qle_bool (inject_Z k) (q / inject_Z c) = Qle_bool (inject_Z (k * c)) q.
Proof.
  intros Hc. apply eq_true_iff_eq. rewrite !Qle_bool_iff. split.
  - intros H. now apply div_const_le.
  - intros H. rewrite inject_Z_mult in H. apply Qle_shift_div_l; [|exact H].
    now rewrite Zlt_Qlt in Hc.
Qed.

Lemma Qle_bool_inject_Z (n m : Z) : Qle_bool (inject_Z n) (inject_Z m) = (n <=? m)%Z.
Proof.
  apply eq_true_iff_eq. rewrite Qle_bool_iff, Z.leb_le. now rewrite <- Zle_Qle.
Qed.

Lemma Qlt_bool_inject_Z (n m : Z) : JS.Qlt_bool (inject_Z n) (inject_Z m) = (n <? m)%Z.
Proof.
  unfold JS.Qlt_bool. rewrite Qle_bool_inject_Z.
  destruct (Z.leb_spec m n), (Z.ltb_spec n m); simpl; try reflexivity; lia.
Qed.

Lemma Qle_bool_inject_Z_sub (n a b : Z) :
  Qle_bool (inject_Z n) (inject_Z b - inject_Z a) = (n <=? b - a)%Z.
Proof.
  apply eq_true_iff_eq. rewrite Qle_bool_iff, Z.leb_le. unfold Qminus.
  now rewrite <- inject_Z_opp, <- inject_Z_plus, <- Zle_Qle.
Qed.

Lemma Qlt_bool_minutes (a b k : Z) :
  JS.Qlt_bool ((inject_Z b - inject_Z a) / inject_Z (1000 * 60)) (inject_Z k) =
  (b - a <? k * 60000)%Z.
Proof.
  unfold JS.Qlt_bool. rewrite Qle_bool_div_const by lia. rewrite Qle_bool_inject_Z_sub.
  change (1000 * 60)%Z with 60000%Z.
  destruct (Z.leb_spec (k * 60000) (b - a)), (Z.ltb_spec (b - a) (k * 60000));
    simpl; try reflexivity; lia.
Qed.

Lemma rangeOfMinutes_duration (a b : Z) :
  rangeOfMinutes ((inject_Z b - inject_Z a) / inject_Z (1000 * 60)) = rangeOfDurationMs (b - a).
Proof.
  unfold rangeOfMinutes, rangeOfDurationMs.
  change 2%Q with (inject_Z 2). change 5%Q with (inject_Z 5).
  change 10%Q with (inject_Z 10). change 30%Q with (inject_Z 30).
  change 60%Q with (inject_Z 60). change 120%Q with (inject_Z 120).
  now rewrite !Qlt_bool_minutes.
Qed.

Lemma rangeOfMinutes_rounded (d : Z) :
  rangeOfMinutes (inject_Z ((d + 30000) / 60000)) = rangeOfDurationMs (d + 30000).
Proof.
  unfold rangeOfMinutes, rangeOfDurationMs.
  change 2%Q with (inject_Z 2). change 5%Q with (inject_Z 5).
  change 10%Q with (inject_Z 10). change 30%Q with (inject_Z 30).
  change 60%Q with (inject_Z 60). change 120%Q with (inject_Z 120).
  rewrite !Qlt_bool_inject_Z.
  assert (E : forall k, ((d + 30000) / 60000 <? k)%Z = (d + 30000 <? k * 60000)%Z).
  { intros k. destruct (Z.ltb_spec ((d + 30000) / 60000) k) as [H|H],
      (Z.ltb_spec (d + 30000) (k * 60000)) as [H'|H']; try reflexivity; exfalso.
    - pose proof (Z.div_le_lower_bound (d + 30000) 60000 k ltac:(lia) ltac:(lia)). lia.
    - pose proof (Z.div_lt_upper_bound (d + 30000) 60000 k ltac:(lia) ltac:(lia)). lia. }
  now rewrite !E.
Qed.


(** The six ranges partition the durations from two minutes on: for the
    minutes and hours computed from the time values [a] and [b] as the
    finalizer computes them, a tag matches exactly when it is the range of
    [b - a]; so no tag matches under 120000 ms, and from there on exactly one
    tag does, whatever the duration. *)
Theorem matchesTimeRange_partition (a b : Z) (range : string) :
  let minutes := JS.div (JS.sub (JS.of_Z b) (JS.of_Z a)) (inject_Z (1000 * 60)) in
  let hours := JS.div minutes 60 in
  matchesTimeRange range minutes hours = true <-> rangeOfDurationMs (b - a) = Some range.
Proof.
  cbv zeta. cbn [JS.sub JS.lift2 JS.of_Z].
  rewrite <- rangeOfMinutes_duration. apply matchesTimeRange_rangeOfMinutes.
Qed.


(** ** Gaps are classified by their rounded minutes *)

Lemma rounded_minutes_range (a b : Z) (range : string) :
  let minutes :=
    JS.Math_round (JS.div (JS.sub (JS.of_Z b) (JS.of_Z a)) (inject_Z (1000 * 60))) in
  matchesTimeRange range minutes (JS.div minutes 60) = true <->
  rangeOfDurationMs (b - a + 30000) = Some range.
Proof.
  cbv zeta. unfold JS.sub, JS.lift2, JS.of_Z, JS.Math_round.
  cbn [JS.div option_map]. rewrite round_minutes.
  rewrite <- rangeOfMinutes_rounded. apply matchesTimeRange_rangeOfMinutes.
Qed.

(** A gap between the time values [a] and [b] matches a tag exactly when
    that tag is the range of a duration 30 seconds longer: rounding the
    minutes shifts every range boundary down by half a minute. *)
Theorem gap_range_shifted_by_half_minute (prev cur : FitRecord.t) (a b : Z) (range : string) :
  let gap := makeGap prev cur (JS.sub (JS.of_Z b) (JS.of_Z a)) in
  matchesTimeRange range (TimestampGap.gapDurationMinutes gap)
    (TimestampGap.gapDurationHours gap) = true <->
  rangeOfDurationMs (b - a + 30000) = Some range.
Proof.
  cbv zeta. cbn [makeGap TimestampGap.gapDurationMinutes TimestampGap.gapDurationHours].
  apply rounded_minutes_range.
Qed.

(** With the default five-minute threshold a detected gap always rounds to
    five minutes or more, so selecting only '2to5' never lists a recording
    gap, in either pipeline. *)
Lemma gap_over_default_not_2to5 (records : list FitRecord.t) (g : TimestampGap.t) :
  In g (gapLoop records (JS.of_Z 300000)) -> gapMatches ["2to5"%string] g = false.
Proof.
  rewrite gapLoop_pairs. intros Hin. apply gapsOfPairs_In in Hin.
  destruct Hin as (prev & cur & t1 & t2 & _ & _ & Hgt & ->).
  destruct (gt_true_dates _ _ _ Hgt) as (a & b & -> & ->).
  cbn [JS.getTime] in *. rewrite gt_of_Z_iff in Hgt. apply Z.ltb_lt in Hgt.
  unfold gapMatches, matchesAnyRange. cbn [existsb]. rewrite orb_false_r.
  destruct (matchesTimeRange "2to5" _ _) eqn:E; [|reflexivity].
  cbn [makeGap TimestampGap.gapDurationMinutes TimestampGap.gapDurationHours] in E.
  apply rounded_minutes_range in E. unfold rangeOfDurationMs in E.
  destruct (Z.ltb_spec (b - a + 30000) 120000); [discriminate|].
  destruct (Z.ltb_spec (b - a + 30000) 300000); [lia|].
  repeat match type of E with
  | (if ?c then _ else _) = _ => destruct c; try discriminate
  end.
Qed.

Theorem default_threshold_no_gap_in_2to5 (records : list FitRecord.t) :
  Forall (fun p => SlowPeriod.isGap p = false)
    (findSlowPeriodsWithRanges None records ["2to5"%string]) /\
  Forall (fun p => SlowPeriod.isGap p = false)
    (Legacy.findSlowPeriodsWithRanges records ["2to5"%string]).
Proof.
  assert (H : forall slow,
            Forall slowRunPeriod slow ->
            Forall (fun p => SlowPeriod.isGap p = false)
              (arraySort startNotAfter
                 (mergeOf ["2to5"%string] slow (gapLoop records (JS.of_Z 300000))))).
  { intros slow Hslow. apply sorted_Forall. unfold mergeOf. apply Forall_app. split.
    - eapply List.Forall_impl; [|exact Hslow]. now intros p (Hgap & _).
    - apply List.Forall_forall. intros p (g & <- & Hg)%in_map_iff.
      apply filter_In in Hg. destruct Hg as [Hin Hm].
      rewrite (gap_over_default_not_2to5 _ _ Hin) in Hm. discriminate. }
  split.
  - rewrite findSlowPeriodsWithRanges_sorted_merge. apply H, slowRuns_Forall.
  - rewrite legacy_findSlowPeriodsWithRanges_sorted_merge. apply H, legacy_slowRuns_Forall.
Qed.

(** ** The gap detector: count and threshold *)

Lemma gapsOfPairs_length (thr : JS.num) (records : list FitRecord.t) :
  (length (gapsOfPairs thr records) <= length records - 1)%nat.
Proof.
  induction records as [|prev rest IH]; [simpl; lia|].
  destruct rest as [|cur rest]; [simpl; lia|].
  change (gapsOfPairs thr (prev :: cur :: rest))
    with (gapOfPair thr prev cur ++ gapsOfPairs thr (cur :: rest)).
  rewrite length_app.
  assert (length (gapOfPair thr prev cur) <= 1)%nat.
  { unfold gapOfPair.
    destruct (FitRecord.timestamp prev), (FitRecord.timestamp cur); simpl; try lia.
    destruct (JS.gt _ thr); simpl; lia. }
  cbn [length] in *. lia.
Qed.

(** There are fewer gaps than records: at most one per consecutive pair, so
    none for an empty or one-record file. *)
Theorem findTimestampGaps_fewer_than_records (ui : ThresholdSelect)
    (records : list FitRecord.t) (threshold : option Q) :
  (length (findTimestampGaps ui records threshold) <= length records - 1)%nat /\
  (length (Analysis.findTimestampGaps records) <= length records - 1)%nat.
Proof.
  unfold findTimestampGaps, Analysis.findTimestampGaps. rewrite !gapLoop_pairs.
  split; apply gapsOfPairs_length.
Qed.

Lemma gt_of_Z_mono (x : JS.num) (t1 t2 : Z) :
  (t1 <= t2)%Z -> JS.gt x (JS.of_Z t2) = true -> JS.gt x (JS.of_Z t1) = true.
Proof.
  intros Hle. unfold JS.gt, JS.of_Z, JS.lt. destruct x as [q|]; [|discriminate].
  rewrite !Qlt_bool_iff. intros H. eapply Qle_lt_trans; [|exact H].
  now rewrite <- Zle_Qle.
Qed.

Lemma gapsOfPairs_threshold_sublist (t1 t2 : Z) (records : list FitRecord.t) :
  (t1 <= t2)%Z ->
  gapsOfPairs (JS.of_Z t2) records `sublist_of` gapsOfPairs (JS.of_Z t1) records.
Proof.
  intros Hle. induction records as [|prev rest IH]; [constructor|].
  destruct rest as [|cur rest]; [constructor|].
  change (gapsOfPairs (JS.of_Z t2) (prev :: cur :: rest))
    with (gapOfPair (JS.of_Z t2) prev cur ++ gapsOfPairs (JS.of_Z t2) (cur :: rest)).
  change (gapsOfPairs (JS.of_Z t1) (prev :: cur :: rest))
    with (gapOfPair (JS.of_Z t1) prev cur ++ gapsOfPairs (JS.of_Z t1) (cur :: rest)).
  apply sublist_app; [|exact IH].
  unfold gapOfPair.
  destruct (FitRecord.timestamp prev) as [d1|]; [|constructor].
  destruct (FitRecord.timestamp cur) as [d2|]; [|constructor].
  cbv zeta. destruct (JS.gt _ (JS.of_Z t2)) eqn:E2; [|apply sublist_nil_l].
  now rewrite (gt_of_Z_mono _ t1 t2 Hle E2).
Qed.

(** Raising the threshold setting only removes gaps: the gaps found with
    the larger threshold are among those found with the smaller one, with the
    same descriptors and in the same order. *)
Theorem findTimestampGaps_threshold_monotone (t1 t2 : Z) (records : list FitRecord.t) :
  (t1 <= t2)%Z ->
  findTimestampGaps (Some (JS.of_Z t2)) records None
    `sublist_of` findTimestampGaps (Some (JS.of_Z t1)) records None.
Proof.
  intros Hle. unfold findTimestampGaps. rewrite !gapLoop_pairs.
  now apply gapsOfPairs_threshold_sublist.
Qed.

Lemma findTimestampGaps_threshold_monotone_witness :
  (300000 <= 900000)%Z /\
  findTimestampGaps (Some (JS.of_Z 900000)) mergeExample None
    `sublist_of` findTimestampGaps (Some (JS.of_Z 300000)) mergeExample None.
Proof.
  split; [lia|].
  exact (findTimestampGaps_threshold_monotone 300000 900000 mergeExample ltac:(lia)).
Defined.

(** ** Gaps come out in chronological order *)

Lemma nonDecreasing_cons_inv (x : Z) (l : list Z) :
  nonDecreasing (x :: l) = true -> nonDecreasing l = true /\ Forall (Z.le x) l.
Proof.
  revert x. induction l as [|y l IH]; intros x H; [split; [reflexivity|constructor]|].
  cbn [nonDecreasing] in H. apply andb_true_iff in H. destruct H as [Hxy Hl].
  apply Z.leb_le in Hxy. split; [exact Hl|].
  destruct (IH y Hl) as [_ Hy]. constructor; [exact Hxy|].
  eapply List.Forall_impl; [|exact Hy]. intros z Hz. lia.
Qed.

Lemma omap_timeValueOf_cons (record : FitRecord.t) (records : list FitRecord.t) :
  omap timeValueOf (record :: records) =
  match timeValueOf record with
  | Some ms => ms :: omap timeValueOf records
  | None => omap timeValueOf records
  end.
Proof. reflexivity. Qed.

Lemma timeValueOf_at (record : FitRecord.t) (ms : Z) :
  FitRecord.timestamp record = Some (JS.TimeValue ms) -> timeValueOf record = Some ms.
Proof. unfold timeValueOf. now intros ->. Qed.

Lemma gapsOfPairs_starts (thr : JS.num) (records : list FitRecord.t) (g : TimestampGap.t) :
  In g (gapsOfPairs thr records) ->
  exists s, TimestampGap.startTime g = at_ s /\ In s (omap timeValueOf records).
Proof.
  induction records as [|prev rest IH]; [intros []|].
  destruct rest as [|cur rest]; [intros []|].
  change (gapsOfPairs thr (prev :: cur :: rest))
    with (gapOfPair thr prev cur ++ gapsOfPairs thr (cur :: rest)).
  rewrite in_app_iff. intros [H|H].
  - unfold gapOfPair in H.
    destruct (FitRecord.timestamp prev) as [t1|] eqn:E1; [|destruct H].
    destruct (FitRecord.timestamp cur) as [t2|] eqn:E2; [|destruct H].
    cbv zeta in H. destruct (JS.gt _ thr) eqn:E; [|destruct H].
    destruct H as [<-|[]]. destruct (gt_true_dates _ _ _ E) as (a & b & -> & ->).
    exists a. split; [exact E1|].
    rewrite omap_timeValueOf_cons, (timeValueOf_at _ _ E1). now left.
  - destruct (IH H) as (s & Hs & Hin). exists s. split; [exact Hs|].
    rewrite omap_timeValueOf_cons. destruct (timeValueOf prev); [now right | exact Hin].
Qed.

(** For records whose present timestamps never decrease and a threshold
    that is not negative, every detected gap runs forward in time and the
    gaps come out in chronological order without overlapping: each gap ends
    no later than every later gap starts. *)
Theorem findTimestampGaps_chronological (t : Z) (records : list FitRecord.t) :
  timestampsNonDecreasing records -> (0 <= t)%Z ->
  Forall gapForward (findTimestampGaps (Some (JS.of_Z t)) records None) /\
  StronglySorted gapBefore (findTimestampGaps (Some (JS.of_Z t)) records None).
Proof.
  unfold timestampsNonDecreasing, findTimestampGaps. rewrite gapLoop_pairs.
  change (gapThresholdOf None (Some (JS.of_Z t))) with (JS.of_Z t).
  intros Hmono Ht. induction records as [|prev rest IH]; [split; constructor|].
  assert (Hrest : nonDecreasing (omap timeValueOf rest) = true).
  { rewrite omap_timeValueOf_cons in Hmono. destruct (timeValueOf prev); [|exact Hmono].
    now apply nonDecreasing_cons_inv in Hmono. }
  specialize (IH Hrest). destruct IH as [IHf IHs].
  destruct rest as [|cur rest]; [split; constructor|].
  change (gapsOfPairs (JS.of_Z t) (prev :: cur :: rest))
    with (gapOfPair (JS.of_Z t) prev cur ++ gapsOfPairs (JS.of_Z t) (cur :: rest)).
  unfold gapOfPair.
  destruct (FitRecord.timestamp prev) as [t1|] eqn:E1; [|split; assumption].
  destruct (FitRecord.timestamp cur) as [t2|] eqn:E2; [|split; assumption].
  cbv zeta. destruct (JS.gt _ (JS.of_Z t)) eqn:E; [|split; assumption].
  destruct (gt_true_dates _ _ _ E) as (a & b & -> & ->).
  cbn [JS.getTime] in E. rewrite gt_of_Z_iff in E. apply Z.ltb_lt in E.
  cbn [app]. split.
  - constructor; [|exact IHf]. exists a, b. cbn. repeat split; auto. lia.
  - apply SSorted_cons; [exact IHs|].
    apply List.Forall_forall. intros g Hg.
    apply gapsOfPairs_starts in Hg. destruct Hg as (s & Hs & Hin).
    exists b, s. cbn [makeGap TimestampGap.endTime]. repeat split; auto.
    rewrite omap_timeValueOf_cons, (timeValueOf_at _ _ E2) in Hrest, Hin.
    destruct Hin as [<-|Hin]; [lia|].
    apply nonDecreasing_cons_inv in Hrest. destruct Hrest as [_ Hall].
    rewrite List.Forall_forall in Hall. now apply Hall.
Qed.

Lemma findTimestampGaps_chronological_witness :
  timestampsNonDecreasing mergeExample /\ (0 <= 300000)%Z /\
  Forall gapForward (findTimestampGaps (Some (JS.of_Z 300000)) mergeExample None) /\
  StronglySorted gapBefore (findTimestampGaps (Some (JS.of_Z 300000)) mergeExample None).
Proof.
  split; [reflexivity|]. split; [lia|].
  exact (findTimestampGaps_chronological 300000 mergeExample eq_refl ltac:(lia)).
Defined.

(** ** The two segmentation loops *)







(** ** No record is counted twice *)

Lemma totalRecordCount_app (l1 l2 : list SlowPeriod.t) :
  totalRecordCount (l1 ++ l2) = (totalRecordCount l1 + totalRecordCount l2)%nat.
Proof. unfold totalRecordCount. now rewrite map_app, list_sum_app. Qed.

Lemma pushIfAny_count (slowPeriods : list SlowPeriod.t) (run : list FitRecord.t)
    (selectedRanges : list string) :
  (totalRecordCount (pushIfAny slowPeriods (processSlowSequence run selectedRanges))
   <= totalRecordCount slowPeriods + length run)%nat.
Proof.
  destruct (processSlowSequence run selectedRanges) as [p|] eqn:E; simpl; [|lia].
  apply processSlowSequence_Some_inv in E. destruct E as (_ & Hcount & _).
  rewrite totalRecordCount_app. unfold totalRecordCount at 2. simpl. lia.
Qed.

Lemma slowStep_count (ui : ThresholdSelect) (selectedRanges : list string)
    (st : SegmentState) (record : FitRecord.t) :
  let st' := slowStep ui selectedRanges st record in
  (totalRecordCount (fst st') + length (snd st')
   <= totalRecordCount (fst st) + length (snd st) + length (List.filter isSlow [record]))%nat.
Proof.
  destruct st as [slowPeriods run]. cbv zeta. unfold slowStep. cbn [List.filter].
  pose proof (pushIfAny_count slowPeriods run selectedRanges) as Hpush.
  destruct (isSlow record); cbn [fst snd length].
  - destruct run as [|first tl]; [simpl; lia|].
    destruct (JS.gt _ _); cbn [fst snd length].
    + cbn [length] in Hpush. lia.
    + rewrite length_app. cbn [length]. lia.
  - lia.
Qed.

Lemma legacy_slowStep_count (selectedRanges : list string)
    (st : SegmentState) (record : FitRecord.t) :
  let st' := Legacy.slowStep selectedRanges st record in
  (totalRecordCount (fst st') + length (snd st')
   <= totalRecordCount (fst st) + length (snd st) + length (List.filter isSlow [record]))%nat.
Proof.
  destruct st as [slowPeriods run]. cbv zeta. unfold Legacy.slowStep. cbn [List.filter].
  pose proof (pushIfAny_count slowPeriods run selectedRanges) as Hpush.
  destruct (isSlow record); cbn [fst snd length].
  - rewrite length_app. cbn [length]. lia.
  - lia.
Qed.

Lemma fold_count (step : SegmentState -> FitRecord.t -> SegmentState)
    (records : list FitRecord.t) :
  (forall st record,
     (totalRecordCount (fst (step st record)) + length (snd (step st record))
      <= totalRecordCount (fst st) + length (snd st)
         + length (List.filter isSlow [record]))%nat) ->
  forall st,
    (totalRecordCount (fst (fold_left step records st))
     + length (snd (fold_left step records st))
     <= totalRecordCount (fst st) + length (snd st)
        + length (List.filter isSlow records))%nat.
Proof.
  intros Hstep. induction records as [|r records IH]; intros st; [simpl; lia|].
  cbn [fold_left]. specialize (IH (step st r)). specialize (Hstep st r).
  change (r :: records) with ([r] ++ records). rewrite List.filter_app, length_app. lia.
Qed.

Lemma totalRecordCount_gaps (gaps : list TimestampGap.t) :
  totalRecordCount (map gapAsPeriod gaps) = 0%nat.
Proof. induction gaps as [|g gaps IH]; [reflexivity|exact IH]. Qed.

Lemma totalRecordCount_sorted (l : list SlowPeriod.t) :
  totalRecordCount (arraySort startNotAfter l) = totalRecordCount l.
Proof.
  unfold totalRecordCount. apply Permutation_list_sum, Permutation_map.
  apply arraySort_Permutation.
Qed.

(** The record counts of the listed periods add up to at most the number
    of slow records of the file: a record belongs to at most one slow period,
    and a gap period counts none.  This holds for both pipelines. *)
Theorem record_counts_bounded_by_slow_records (ui : ThresholdSelect)
    (records : list FitRecord.t) (selectedRanges : list string) :
  (totalRecordCount (findSlowPeriodsWithRanges ui records selectedRanges)
   <= length (List.filter isSlow records))%nat /\
  (totalRecordCount (Legacy.findSlowPeriodsWithRanges records selectedRanges)
   <= length (List.filter isSlow records))%nat.
Proof.
  rewrite findSlowPeriodsWithRanges_sorted_merge, legacy_findSlowPeriodsWithRanges_sorted_merge.
  rewrite !totalRecordCount_sorted. unfold mergedPeriods, legacyMergedPeriods, mergeOf.
  rewrite !totalRecordCount_app, !totalRecordCount_gaps. split.
  - unfold slowRuns.
    pose proof (fold_count (slowStep ui selectedRanges) records
                  (slowStep_count ui selectedRanges) ([], [])) as H.
    destruct (fold_left _ records _) as [slowPeriods run]. cbn [fst snd] in H.
    pose proof (pushIfAny_count slowPeriods run selectedRanges). simpl in H. lia.
  - unfold Legacy.slowRuns.
    pose proof (fold_count (Legacy.slowStep selectedRanges) records
                  (legacy_slowStep_count selectedRanges) ([], [])) as H.
    destruct (fold_left _ records _) as [slowPeriods run]. cbn [fst snd] in H.
    pose proof (pushIfAny_count slowPeriods run selectedRanges). simpl in H. lia.
Qed.

(** ** Gap periods and the map helpers *)

Lemma collectAvailableGpsPoints_gapGpsPoints (gap : TimestampGap.t) :
  collectAvailableGpsPoints gap = gapGpsPoints gap.
Proof.
  unfold collectAvailableGpsPoints, gapGpsPoints.
  now destruct (TimestampGap.startGpsPoint gap), (TimestampGap.endGpsPoint gap).
Qed.

Lemma mergeOf_gap_period (selectedRanges : list string) (slow : list SlowPeriod.t)
    (gaps : list TimestampGap.t) (p : SlowPeriod.t) :
  Forall slowRunPeriod slow ->
  In p (mergeOf selectedRanges slow gaps) -> SlowPeriod.isGap p = true ->
  exists gap, In gap gaps /\ p = gapAsPeriod gap.
Proof.
  intros Hslow Hin Hgap. unfold mergeOf in Hin. apply in_app_iff in Hin.
  destruct Hin as [Hin|Hin].
  - rewrite List.Forall_forall in Hslow. destruct (Hslow _ Hin) as (Hfalse & _). congruence.
  - apply in_map_iff in Hin. destruct Hin as (gap & <- & Hg).
    apply filter_In in Hg. exists gap. tauto.
Qed.

(** Every slow run of the gap-aware loop is the finalization of some run. *)
Lemma slowRuns_finalized (ui : ThresholdSelect) (records : list FitRecord.t)
    (selectedRanges : list string) :
  Forall (fun p => exists run, processSlowSequence run selectedRanges = Some p)
    (slowRuns ui records selectedRanges).
Proof.
  unfold slowRuns.
  assert (H : forall st,
            Forall (fun p => exists run, processSlowSequence run selectedRanges = Some p)
              (fst st) ->
            Forall (fun p => exists run, processSlowSequence run selectedRanges = Some p)
              (fst (fold_left (slowStep ui selectedRanges) records st))).
  { induction records as [|r rs IH]; intros st Hst; [exact Hst|].
    simpl. apply IH. destruct st as [sp run]. unfold slowStep.
    assert (HP : Forall (fun p => exists run, processSlowSequence run selectedRanges = Some p)
                   (pushIfAny sp (processSlowSequence run selectedRanges))).
    { apply pushIfAny_Forall; [exact Hst|]. intros q Hq. eauto. }
    destruct (isSlow r); [|exact HP].
    destruct run; [exact Hst|]. destruct (JS.gt _ _); [exact HP|exact Hst]. }
  specialize (H ([], []) (List.Forall_nil _)).
  destruct (fold_left _ records _) as [sp run]. simpl in H.
  apply pushIfAny_Forall; [exact H|]. intros q Hq. eauto.
Qed.

(** Every period of the output that is flagged as a gap carries its gap
    descriptor, which is one of the detected gaps, repeats its times and
    distances, and its points are exactly the ones [collectAvailableGpsPoints]
    collects from that descriptor; a period that is not a gap carries none. *)
Theorem gap_periods_carry_their_descriptor (ui : ThresholdSelect)
    (records : list FitRecord.t) (selectedRanges : list string) :
  Forall (fun p =>
            if SlowPeriod.isGap p then
              exists gap,
                SlowPeriod.gapData p = Some gap /\
                In gap (findTimestampGaps ui records None) /\
                SlowPeriod.startTime p = TimestampGap.startTime gap /\
                SlowPeriod.endTime p = TimestampGap.endTime gap /\
                SlowPeriod.startDistance p = TimestampGap.startDistance gap /\
                SlowPeriod.endDistance p = TimestampGap.endDistance gap /\
                SlowPeriod.gpsPoints p = collectAvailableGpsPoints gap
            else SlowPeriod.gapData p = None)
    (findSlowPeriodsWithRanges ui records selectedRanges).
Proof.
  rewrite findSlowPeriodsWithRanges_sorted_merge. apply sorted_Forall.
  apply List.Forall_forall. intros p Hin.
  destruct (SlowPeriod.isGap p) eqn:Hgap.
  - destruct (mergeOf_gap_period _ _ _ _ (slowRuns_Forall ui records selectedRanges) Hin Hgap)
      as (gap & Hg & ->).
    exists gap. rewrite collectAvailableGpsPoints_gapGpsPoints. repeat split; auto.
  - unfold mergedPeriods, mergeOf in Hin. apply in_app_iff in Hin. destruct Hin as [Hin|Hin].
    + pose proof (slowRuns_finalized ui records selectedRanges) as HF.
      rewrite List.Forall_forall in HF. destruct (HF _ Hin) as (run & Hrun).
      now apply processSlowSequence_Some_inv in Hrun.
    + apply in_map_iff in Hin. destruct Hin as (gap & <- & _). discriminate Hgap.
Qed.

(** [initializeGapMiniMap] shows the message only for a gap without any
    point; it sets up the one-point map with the point that exists and flags
    it as the start exactly when it is the start point; and it sets up the
    two-point map only when both points exist, so the marker and polyline
    constructors never receive [null]. *)
Theorem initializeGapMiniMap_safe (gap : TimestampGap.t) :
  match initializeGapMiniMap gap with
  | NoGpsMessage =>
      TimestampGap.startGpsPoint gap = None /\ TimestampGap.endGpsPoint gap = None
  | SinglePointGapMap point isStartPoint =>
      (isStartPoint = true /\ TimestampGap.startGpsPoint gap = Some point /\
       TimestampGap.endGpsPoint gap = None) \/
      (isStartPoint = false /\ TimestampGap.startGpsPoint gap = None /\
       TimestampGap.endGpsPoint gap = Some point)
  | DualPointGapMap startPoint endPoint =>
      exists s e,
        startPoint = Some s /\ endPoint = Some e /\
        TimestampGap.startGpsPoint gap = Some s /\ TimestampGap.endGpsPoint gap = Some e
  end.
Proof.
  unfold initializeGapMiniMap, collectAvailableGpsPoints.
  destruct (TimestampGap.startGpsPoint gap) as [s|], (TimestampGap.endGpsPoint gap) as [e|];
    simpl; eauto 10.
Qed.

(** The marker index [Math.floor(length / 2)] of [addSlowPeriodOverlayToMap]
    is always inside the array it is used on, so the marker position is
    defined whenever the period has any point. *)
Theorem centerPoint_defined (gpsPoints : list GpsPoint) :
  gpsPoints <> [] -> is_Some (centerPoint gpsPoints).
Proof.
  intros Hne. unfold centerPoint. apply lookup_lt_is_Some.
  destruct gpsPoints as [|p l]; [contradiction|].
  apply Nat.div_lt; simpl; lia.
Qed.

Lemma centerPoint_defined_witness :
  convertGpsCoordinates mergeExample <> [] /\
  is_Some (centerPoint (convertGpsCoordinates mergeExample)).
Proof.
  split; [discriminate|].
  exact (centerPoint_defined (convertGpsCoordinates mergeExample) ltac:(discriminate)).
Defined.

(** ** The time extractor: outcomes *)

(** [extractActivityTimes] throws exactly when there is a first summary with
    a truthy elapsed time and no start time; when it returns, the moving time
    and the total distance are those of the first summary (null without
    one), whatever the records are. *)
Theorem extractActivityTimes_outcomes (sessions : list FitSession.t)
    (records : list FitRecord.t) :
  (extractActivityTimes sessions records = JS.Throw JS.TypeError <->
   exists session rest,
     sessions = session :: rest /\
     JS.truthy (FitSession.totalElapsedTime session) = true /\
     FitSession.startTime session = None) /\
  (forall times,
     extractActivityTimes sessions records = JS.Normal times ->
     ActivityTimes.movingTime times = head sessions ≫= FitSession.totalTimerTime /\
     ActivityTimes.totalDistance times = head sessions ≫= FitSession.totalDistance).
Proof.
  unfold extractActivityTimes, summaryTimes.
  destruct sessions as [|session rest].
  - split.
    + split; [destruct records; discriminate|]. intros (x & y & [=] & _).
    + intros times. destruct records; intros [= <-]; split; reflexivity.
  - destruct (JS.truthy (FitSession.totalElapsedTime session)) eqn:Et;
      [destruct (FitSession.startTime session) as [d|] eqn:Es|]; cbn [JS.bind].
    + split.
      * split; [destruct records; discriminate|].
        intros (x & y & [= <- <-] & _ & H). congruence.
      * intros times. destruct records; intros [= <-]; split; reflexivity.
    + split; [|discriminate]. split; [|reflexivity]. intros _. exists session, rest. auto.
    + split.
      * split; [destruct records; discriminate|].
        intros (x & y & [= <- <-] & H & _). congruence.
      * intros times. destruct records; intros [= <-]; split; reflexivity.
Qed.

(** The older [main.js] extractor differs from the current one in exactly
    one situation: the summary branch yields a start time and there are
    records; it then keeps the summary's start and end instead of the
    records' timestamps.  In every other case the two return the same. *)
Theorem legacy_extractActivityTimes_difference (sessions : list FitSession.t)
    (records : list FitRecord.t) :
  Legacy.extractActivityTimes sessions records =
  match summaryTimes sessions, records with
  | JS.Normal (Some startTime, endTime, movingTime, totalDistance), _ :: _ =>
      JS.Normal (ActivityTimes.mk (Some startTime) endTime movingTime totalDistance)
  | _, _ => extractActivityTimes sessions records
  end.
Proof.
  unfold Legacy.extractActivityTimes, extractActivityTimes.
  destruct (summaryTimes sessions) as [[[[[s|] e] m] d]|err]; cbn [JS.bind];
    destruct records; reflexivity.
Qed.

(** ** Coordinates *)

Lemma degrees_proper (z : Z) : int32 z -> z <> 0%Z -> properDegrees (degrees z).
Proof.
  intros [Hlo Hhi] Hnz. unfold properDegrees, degrees. eexists. split; [reflexivity|].
  unfold SEMICIRCLE_TO_DEGREES.
  change (inject_Z (2 ^ 31)) with (2147483648 # 1).
  assert (Hz : ~ (inject_Z z == 0)%Q).
  { unfold Qeq, inject_Z. simpl. lia. }
  assert (H1 : (inject_Z (- 2 ^ 31) <= inject_Z z)%Q) by (now rewrite <- Zle_Qle).
  assert (H2 : (inject_Z z < inject_Z (2 ^ 31))%Q) by (now rewrite <- Zlt_Qlt).
  change (inject_Z (- 2 ^ 31)) with (-2147483648 # 1) in H1.
  change (inject_Z (2 ^ 31)) with (2147483648 # 1) in H2.
  set (x := inject_Z z) in *.
  assert (E : (x * (180 / (2147483648 # 1)) == x * (180 # 2147483648))%Q)
    by (apply Qmult_comp; reflexivity).
  rewrite E. repeat split; lra.
Qed.

(** [convertGpsCoordinates] never returns more points than records, and for
    int32 semicircle fields every coordinate it returns is a finite number of
    degrees in [-180, 180) other than 0: a record on the equator or on the
    prime meridian contributes no point. *)
Theorem convertGpsCoordinates_points (records : list FitRecord.t) :
  Forall int32Position records ->
  (length (convertGpsCoordinates records) <= length records)%nat /\
  Forall (fun point => properDegrees (fst point) /\ properDegrees (snd point))
    (convertGpsCoordinates records).
Proof.
  intros Hint. split.
  - unfold convertGpsCoordinates. rewrite length_map. apply List.filter_length_le.
  - unfold convertGpsCoordinates. apply List.Forall_forall.
    intros point (record & <- & Hin)%in_map_iff.
    apply filter_In in Hin. destruct Hin as [Hin Hpos].
    rewrite List.Forall_forall in Hint. destruct (Hint _ Hin) as [Hlat Hlon].
    unfold hasPosition in Hpos. apply andb_true_iff in Hpos. destruct Hpos as [H1 H2].
    unfold gpsPointOf, toDegrees, coordinate. cbn [fst snd].
    destruct (FitRecord.positionLat record) as [lat|]; [|discriminate].
    destruct (FitRecord.positionLong record) as [lon|]; [|discriminate].
    simpl in H1, H2. apply negb_true_iff, Z.eqb_neq in H1, H2.
    split; apply degrees_proper; auto.
Qed.

Lemma convertGpsCoordinates_points_witness :
  Forall int32Position mergeExample /\
  (length (convertGpsCoordinates mergeExample) <= length mergeExample)%nat /\
  Forall (fun point => properDegrees (fst point) /\ properDegrees (snd point))
    (convertGpsCoordinates mergeExample).
Proof.
  assert (H : Forall int32Position mergeExample).
  { unfold mergeExample.
    repeat (apply List.Forall_cons; [split; intros z [= <-]; unfold int32; lia|]).
    apply List.Forall_nil. }
  split; [exact H|]. exact (convertGpsCoordinates_points mergeExample H).
Defined.

(** ** The selection read from the page *)

Lemma map_fst_filter_sublist {A B : Type} (f : A * B -> bool) (l : list (A * B)) :
  map fst (List.filter f l) `sublist_of` map fst l.
Proof.
  induction l as [|x l IH]; [constructor|].
  cbn [List.filter map]. destruct (f x); [now apply sublist_skip|now apply sublist_cons].
Qed.

(** [getSelectedRanges] returns the ticked tags in the order of the six
    known tags, without repetition; a tag is returned exactly when its
    checkbox exists and is ticked, so every tag it returns is one the
    classifier knows. *)
Theorem getSelectedRanges_known_in_order (getElementById : string -> option bool) :
  getSelectedRanges getElementById `sublist_of` knownRanges /\
  NoDup (getSelectedRanges getElementById) /\
  forall range,
    In range (getSelectedRanges getElementById) <->
    In range knownRanges /\
    getElementById ("threshold_" +:+ range) = Some true.
Proof.
  assert (Hsub : getSelectedRanges getElementById `sublist_of` knownRanges).
  { unfold getSelectedRanges.
    change knownRanges with (map fst (thresholdCheckboxes getElementById)).
    apply map_fst_filter_sublist. }
  split; [exact Hsub|]. split.
  - eapply sublist_NoDup; [|exact Hsub].
    apply NoDup_ListNoDup. unfold knownRanges.
    repeat (apply List.NoDup_cons; [simpl; intuition discriminate|]). apply List.NoDup_nil.
  - intros range. unfold getSelectedRanges. rewrite in_map_iff. split.
    + intros ([key box] & <- & Hin). apply filter_In in Hin. destruct Hin as [Hin Hc].
      cbn [fst snd] in *. unfold thresholdCheckboxes in Hin. simpl in Hin.
      destruct box as [[|]|]; try discriminate.
      repeat (destruct Hin as [Hin|Hin];
              [injection Hin as <- Hbox; split; [simpl; tauto | exact Hbox]|]).
      destruct Hin.
    + intros [Hin Hc]. exists (range, Some true). split; [reflexivity|].
      apply filter_In. split; [|reflexivity].
      unfold knownRanges in Hin. simpl in Hin.
      repeat (destruct Hin as [<-|Hin];
              [simpl in Hc; rewrite <- Hc; simpl; tauto|]).
      destruct Hin.
Qed.

(** ** The figures of the display *)

Lemma round_seconds (s e : Z) :
  JS.Qround_half_up ((inject_Z e - inject_Z s) / inject_Z 1000) = ((e - s + 500) / 1000)%Z.
Proof.
  unfold JS.Qround_half_up.
  assert (E : ((inject_Z e - inject_Z s) / inject_Z 1000 + (1 # 2)
               == (e - s + 500) # 1000)%Q).
  { unfold Qeq, Qdiv, Qinv, Qminus, Qopp, Qplus, Qmult, inject_Z. simpl. lia. }
  rewrite E. reflexivity.
Qed.

Lemma periodSeconds_spans (lo : Z) (p : SlowPeriod.t) :
  spans (lo * 1000) p -> exists n, periodSeconds p = JS.of_Z n /\ (lo <= n)%Z.
Proof.
  intros (s & e & Hs & He & Hd). exists ((e - s + 500) / 1000)%Z.
  unfold periodSeconds. rewrite Hs, He. unfold at_.
  cbn [JS.toNumber JS.getTime JS.of_Z JS.sub JS.lift2 JS.div JS.Math_round option_map].
  rewrite round_seconds. split; [reflexivity|].
  apply Z.div_le_lower_bound; lia.
Qed.

Lemma totalSlowDuration_fold (l : list SlowPeriod.t) :
  Forall (fun p => slowRunPeriod p \/ gapPeriod p) l ->
  forall acc nacc,
    isInteger acc nacc ->
    exists n,
      isInteger (fold_left (fun total period => JS.add total (periodSeconds period)) l acc) n /\
      (nacc + 120 * Z.of_nat (length (actualSlowPeriods l))
       + 90 * Z.of_nat (length (gapPeriods l)) <= n)%Z.
Proof.
  induction l as [|p l IH]; intros Hall acc nacc Hacc.
  - exists nacc. split; [exact Hacc|]. simpl. lia.
  - apply Forall_cons_1 in Hall. destruct Hall as [Hp Hl].
    destruct Hacc as (q & -> & Hq).
    assert (Hsec : exists n, periodSeconds p = JS.of_Z n /\
                     ((if SlowPeriod.isGap p then 90 else 120) <= n)%Z).
    { destruct Hp as [(Hg & _ & Hspan)|(Hg & _ & Hspan)]; rewrite Hg.
      - exact (periodSeconds_spans 120 p Hspan).
      - exact (periodSeconds_spans 90 p Hspan). }
    destruct Hsec as (n & Hn & Hlo).
    cbn [fold_left]. rewrite Hn. cbn [JS.add JS.lift2 JS.of_Z].
    destruct (IH Hl (Some (q + inject_Z n)%Q) (nacc + n)%Z) as (m & Hm & Hbound).
    { eexists. split; [reflexivity|]. rewrite Hq, inject_Z_plus. reflexivity. }
    exists m. split; [exact Hm|].
    unfold actualSlowPeriods, gapPeriods in *. cbn [List.filter].
    destruct (SlowPeriod.isGap p); cbn [negb length]; lia.
Qed.

(** The statistics that [createSlowPeriodsDisplay] and [displayActivityData]
    derive from the output of the pipeline: the slow count and the gap count
    add up to the number of periods; the total stopped time is an integer
    number of seconds, never NaN, of at least 120 per slow period and 90 per
    gap; and when there is any period, the estimated moving time for an
    activity of [d] seconds is [max(0, d - total)]. *)
Theorem display_statistics (ui : ThresholdSelect) (records : list FitRecord.t)
    (selectedRanges : list string) :
  let out := findSlowPeriodsWithRanges ui records selectedRanges in
  (length (actualSlowPeriods out) + length (gapPeriods out))%nat = length out /\
  exists total,
    isInteger (totalSlowDuration out) total /\
    (120 * Z.of_nat (length (actualSlowPeriods out))
     + 90 * Z.of_nat (length (gapPeriods out)) <= total)%Z /\
    forall d, out <> [] ->
      isInteger (estimatedMovingTime (JS.of_Z d) out) (Z.max 0 (d - total)).
Proof.
  cbv zeta. set (out := findSlowPeriodsWithRanges ui records selectedRanges).
  split.
  - unfold actualSlowPeriods, gapPeriods. induction out as [|p l IH]; [reflexivity|].
    cbn [List.filter]. destruct (SlowPeriod.isGap p); cbn [negb length]; lia.
  - assert (Hall : Forall (fun p => slowRunPeriod p \/ gapPeriod p) out).
    { unfold out. rewrite findSlowPeriodsWithRanges_sorted_merge.
      apply sorted_Forall, mergedPeriods_Forall. }
    destruct (totalSlowDuration_fold out Hall (JS.of_Z 0) 0%Z) as (total & Htotal & Hbound).
    { eexists. split; reflexivity. }
    exists total. split; [exact Htotal|]. split; [lia|].
    intros d Hne. unfold estimatedMovingTime. destruct out as [|p l]; [contradiction|].
    fold (totalSlowDuration (p :: l)) in Htotal.
    destruct Htotal as (q & -> & Hq).
    cbn [JS.sub JS.lift2 JS.of_Z Math_max0 option_map].
    eexists. split; [reflexivity|].
    destruct (Qle_bool (inject_Z d - q) 0) eqn:E.
    + apply Qle_bool_iff in E. rewrite Hq in E.
      assert (d - total <= 0)%Z.
      { rewrite Zle_Qle. unfold Z.sub. rewrite inject_Z_plus, inject_Z_opp.
        change (inject_Z 0) with 0%Q. lra. }
      now rewrite Z.max_l by lia.
    + assert (0 < d - total)%Z.
      { destruct (Z.lt_ge_cases 0 (d - total)) as [H|H]; [exact H|]. exfalso.
        assert (Qle_bool (inject_Z d - q) 0 = true); [|congruence].
        apply Qle_bool_iff. rewrite Hq.
        assert (Hle : (inject_Z (d - total) <= inject_Z 0)%Q) by (now rewrite <- Zle_Qle).
        unfold Z.sub in Hle. rewrite inject_Z_plus, inject_Z_opp in Hle.
        change (inject_Z 0) with 0%Q in Hle. lra. }
      rewrite Z.max_r by lia. rewrite Hq. unfold Z.sub.
      rewrite inject_Z_plus, inject_Z_opp. reflexivity.
Qed.

(** ** The duration text *)

Lemma pretty_N_char_digit (x : N) : isDigit (pretty_N_char x) = true.
Proof.
  destruct x as [|p]; [reflexivity|].
  repeat match goal with
  | q : positive |- _ => destruct q; try reflexivity
  end.
Qed.

Lemma pretty_N_go_digits (x : N) :
  forall s, allDigits s = true -> allDigits (pretty_N_go x s) = true.
Proof.
  induction x as [x IH] using (well_founded_induction N.lt_wf_0). intros s Hs.
  destruct (N.eq_dec x 0%N) as [->|Hx]; [now rewrite pretty_N_go_0|].
  rewrite pretty_N_go_step by lia. apply IH.
  - apply N.div_lt; lia.
  - cbn [allDigits]. now rewrite pretty_N_char_digit.
Qed.

Lemma pretty_Z_digits (z : Z) : (0 <= z)%Z -> allDigits (pretty z) = true.
Proof.
  destruct z as [|p|p]; [reflexivity| |lia]. intros _.
  change (pretty (Z.pos p)) with (pretty (N.pos p)).
  unfold pretty, pretty_N. destruct (decide (N.pos p = 0%N)); [discriminate|].
  now apply pretty_N_go_digits.
Qed.

Lemma digits_prefix_inj (s1 : string) :
  forall s2 c1 c2 r1 r2,
    allDigits s1 = true -> allDigits s2 = true ->
    isDigit c1 = false -> isDigit c2 = false ->
    s1 +:+ String c1 r1 = s2 +:+ String c2 r2 ->
    s1 = s2 /\ c1 = c2 /\ r1 = r2.
Proof.
  induction s1 as [|d1 s1 IH]; intros [|d2 s2] c1 c2 r1 r2 H1 H2 Hc1 Hc2 E;
    cbn [String.app allDigits] in *.
  - injection E as -> ->. auto.
  - injection E as -> _. apply andb_true_iff in H2. destruct H2. congruence.
  - injection E as -> _. apply andb_true_iff in H1. destruct H1. congruence.
  - injection E as -> E. apply andb_true_iff in H1, H2.
    destruct H1 as [_ H1], H2 as [_ H2].
    destruct (IH s2 c1 c2 r1 r2 H1 H2 Hc1 Hc2 E) as (-> & -> & ->). auto.
Qed.

Lemma formatDuration_parts (totalSeconds : Z) :
  (0 <= totalSeconds)%Z ->
  let hours := (totalSeconds / 3600)%Z in
  let minutes := (Z.rem totalSeconds 3600 / 60)%Z in
  let seconds := Z.rem totalSeconds 60 in
  (0 <= hours)%Z /\ (0 <= minutes < 60)%Z /\ (0 <= seconds < 60)%Z /\
  totalSeconds = (3600 * hours + 60 * minutes + seconds)%Z /\
  (hours = 0 <-> totalSeconds < 3600)%Z.
Proof.
  intros Hs. cbv zeta. rewrite !Z.rem_mod_nonneg by lia.
  Z.div_mod_to_equations. lia.
Qed.

(** For a duration that is not negative, [formatDuration] shows minutes and
    seconds that are each below 60 and, exactly from one hour on, an hour
    field; the fields add up to the duration. *)
Theorem formatDuration_fields (totalSeconds : Z) :
  (0 <= totalSeconds)%Z ->
  exists hours minutes seconds,
    (0 <= hours)%Z /\ (0 <= minutes < 60)%Z /\ (0 <= seconds < 60)%Z /\
    totalSeconds = (3600 * hours + 60 * minutes + seconds)%Z /\
    formatDuration totalSeconds =
    if (hours =? 0)%Z
    then pretty minutes +:+ "m " +:+ pretty seconds +:+ "s"
    else pretty hours +:+ "h " +:+ pretty minutes +:+ "m " +:+ pretty seconds +:+ "s".
Proof.
  intros Hs. destruct (formatDuration_parts totalSeconds Hs) as (Hh & Hm & Hsec & Hsum & Hz).
  exists (totalSeconds / 3600)%Z, (Z.rem totalSeconds 3600 / 60)%Z, (Z.rem totalSeconds 60).
  split; [exact Hh|]. split; [exact Hm|]. split; [exact Hsec|]. split; [exact Hsum|].
  unfold formatDuration.
  destruct (Z.leb_spec 3600 totalSeconds), (Z.eqb_spec (totalSeconds / 3600) 0);
    try reflexivity; lia.
Qed.

Lemma formatDuration_fields_witness :
  (0 <= 3665)%Z /\
  exists hours minutes seconds,
    (0 <= hours)%Z /\ (0 <= minutes < 60)%Z /\ (0 <= seconds < 60)%Z /\
    3665%Z = (3600 * hours + 60 * minutes + seconds)%Z /\
    formatDuration 3665 =
    if (hours =? 0)%Z
    then pretty minutes +:+ "m " +:+ pretty seconds +:+ "s"
    else pretty hours +:+ "h " +:+ pretty minutes +:+ "m " +:+ pretty seconds +:+ "s".
Proof.
  split; [lia|]. exact (formatDuration_fields 3665 ltac:(lia)).
Defined.

(** Two different durations that are not negative never get the same text. *)
Theorem formatDuration_injective (s1 s2 : Z) :
  (0 <= s1)%Z -> (0 <= s2)%Z -> formatDuration s1 = formatDuration s2 -> s1 = s2.
Proof.
  intros H1 H2.
  destruct (formatDuration_parts s1 H1) as (Hh1 & Hm1 & Hs1 & Hsum1 & _).
  destruct (formatDuration_parts s2 H2) as (Hh2 & Hm2 & Hs2 & Hsum2 & _).
  unfold formatDuration.
  set (h1 := (s1 / 3600)%Z) in *. set (m1 := (Z.rem s1 3600 / 60)%Z) in *.
  set (c1 := Z.rem s1 60) in *.
  set (h2 := (s2 / 3600)%Z) in *. set (m2 := (Z.rem s2 3600 / 60)%Z) in *.
  set (c2 := Z.rem s2 60) in *.
  assert (Dh1 := pretty_Z_digits h1 Hh1). assert (Dh2 := pretty_Z_digits h2 Hh2).
  assert (Dm1 := pretty_Z_digits m1 (proj1 Hm1)).
  assert (Dm2 := pretty_Z_digits m2 (proj1 Hm2)).
  assert (Dc1 := pretty_Z_digits c1 (proj1 Hs1)).
  assert (Dc2 := pretty_Z_digits c2 (proj1 Hs2)).
  change ("h " +:+ ?x) with (String "h"%char (String " "%char x)).
  assert (Tail : forall ma ca mb cb : Z,
            allDigits (pretty ma) = true -> allDigits (pretty mb) = true ->
            allDigits (pretty ca) = true -> allDigits (pretty cb) = true ->
            pretty ma +:+ "m " +:+ pretty ca +:+ "s" = pretty mb +:+ "m " +:+ pretty cb +:+ "s" ->
            ma = mb /\ ca = cb).
  { intros ma ca mb cb Da Db Dca Dcb E.
    change ("m " +:+ ?x) with (String "m"%char (String " "%char x)) in E.
    apply digits_prefix_inj in E; try assumption; try reflexivity.
    destruct E as (Em & _ & E). injection E as E.
    apply digits_prefix_inj in E; try assumption; try reflexivity.
    destruct E as (Ec & _ & _).
    split; [exact (inj pretty _ _ Em) | exact (inj pretty _ _ Ec)]. }
  destruct (Z.leb_spec 3600 s1) as [L1|L1], (Z.leb_spec 3600 s2) as [L2|L2]; intros E.
  - change ("h " +:+ ?x) with (String "h"%char (String " "%char x)) in E.
    apply digits_prefix_inj in E; try assumption; try reflexivity.
    destruct E as (Eh & _ & E). injection E as E.
    apply Tail in E; try assumption. destruct E as [Em Ec].
    apply (inj pretty) in Eh. lia.
  - change ("h " +:+ ?x) with (String "h"%char (String " "%char x)) in E.
    change ("m " +:+ ?x) with (String "m"%char (String " "%char x)) in E.
    apply digits_prefix_inj in E; try assumption; try reflexivity.
    destruct E as (_ & [=] & _).
  - change ("h " +:+ ?x) with (String "h"%char (String " "%char x)) in E.
    change ("m " +:+ ?x) with (String "m"%char (String " "%char x)) in E.
    apply digits_prefix_inj in E; try assumption; try reflexivity.
    destruct E as (_ & [=] & _).
  - apply Tail in E; try assumption. destruct E as [Em Ec].
    assert (h1 = 0)%Z by (unfold h1; apply Z.div_small; lia).
    assert (h2 = 0)%Z by (unfold h2; apply Z.div_small; lia).
    lia.
Qed.

Lemma formatDuration_injective_witness :
  (0 <= 125)%Z /\ (0 <= 125)%Z /\ formatDuration 125 = formatDuration 125 /\ 125%Z = 125%Z.
Proof.
  split; [lia|]. split; [lia|]. split; [reflexivity|].
  exact (formatDuration_injective 125 125 ltac:(lia) ltac:(lia) eq_refl).
Defined.

(** The end time of the summary is computed in doubles: [4.35 * 1000] is the
    double [4350], although the double written [4.35] lies below 4.35; and the
    doubles are reached from rationals by rounding to nearest, ties to even. *)
Remark summaryTimes_end_in_doubles :
  summaryTimes [sessionFractional] =
  JS.Normal (at_ T0, at_ (T0 + 4350), None, None) /\
  JS.newDate (JS.add (JS.of_Z T0)
                (JS.mul (FitSession.totalElapsedTime sessionFractional) (JS.of_Z 1000))) =
  JS.TimeValue (T0 + 4349) /\
  Qeq_bool (JS.double (435 # 100)) (2448832297382707 # 562949953421312) = true /\
  Qeq_bool (JS.double (inject_Z (2 ^ 53 + 1))) (inject_Z (2 ^ 53)) = true /\
  Qeq_bool (JS.double (inject_Z (2 ^ 53 + 3))) (inject_Z (2 ^ 53 + 4)) = true.
Proof. vm_compute. repeat split; reflexivity. Qed.

(** ** The repository's unit tests, replayed on the model *)

Example test_identifies_gaps_larger_than_5_minutes :
  map TimestampGap.gapDurationMinutes
    (Analysis.findTimestampGaps [sample T0 5 1000; sample (T0 + 600000) 5 1000]) =
  [JS.of_Z 10].
Proof. reflexivity. Qed.

Example test_ignores_gaps_smaller_than_5_minutes :
  Analysis.findTimestampGaps [sample T0 5 1000; sample (T0 + 120000) 5 1000] = [] /\
  Analysis.findTimestampGaps [sample T0 5 1000; sample (T0 + 300000) 5 1000] = [] /\
  Analysis.findTimestampGaps [] = [].
Proof. repeat split. Qed.

Example test_skips_records_without_timestamps :
  findTimestampGaps None
    [FitRecord.mk None None None (Some 1000%Q) None None;
     FitRecord.mk (at_ T0) None None (Some 1000%Q) None None] None = [].
Proof. reflexivity. Qed.

Example test_extracts_times_from_session_data :
  extractActivityTimes [FitSession.mk (at_ T0) (Some 3600%Q) (Some 3900%Q) (Some 25000%Q)] [] =
  JS.Normal (ActivityTimes.mk (at_ T0) (at_ (T0 + 3900000)) (Some 3600%Q) (Some 25000%Q)).
Proof. vm_compute. reflexivity. Qed.

Example test_falls_back_to_records_and_handles_empty_data :
  extractActivityTimes []
    [FitRecord.mk (at_ T0) None None None None None;
     FitRecord.mk (at_ (T0 + 3600000)) None None None None None] =
  JS.Normal (ActivityTimes.mk (at_ T0) (at_ (T0 + 3600000)) None None) /\
  extractActivityTimes [] [] = JS.Normal (ActivityTimes.mk None None None None).
Proof. split; reflexivity. Qed.

Example test_processes_slow_sequence :
  let run := [sample T0 0 1000; sample (T0 + 300000) 0 1000] in
  option_map (fun p => (SlowPeriod.recordCount p, SlowPeriod.startDistance p,
                        length (SlowPeriod.gpsPoints p)))
    (processSlowSequence run ["2to5"; "5to10"]%string) = Some (2%nat, 1000%Q, 2%nat) /\
  processSlowSequence run ["30to60"%string] = None /\
  processSlowSequence [] ["2to5"%string] = None.
Proof. repeat split. Qed.

Example test_uses_fallback_end_distance :
  option_map SlowPeriod.endDistance
    (processSlowSequence
       [sample T0 0 1000;
        FitRecord.mk (at_ (T0 + 180000)) None None None (Some 612553968%Z) (Some (-2193336)%Z)]
       ["2to5"%string]) = Some 1000%Q.
Proof. reflexivity. Qed.

Example test_filters_out_records_without_coordinates :
  length (convertGpsCoordinates
            [FitRecord.mk None None None None (Some 612553967%Z) (Some (-2193335)%Z);
             FitRecord.mk None None None None None (Some (-2193335)%Z);
             FitRecord.mk None None None None (Some 612553967%Z) None;
             FitRecord.mk (at_ T0) None None None None None]) = 1%nat.
Proof. reflexivity. Qed.

Example test_formatDuration :
  formatDuration 45 = "0m 45s"%string /\ formatDuration 0 = "0m 0s"%string /\
  formatDuration 125 = "2m 5s"%string /\ formatDuration 3600 = "1h 0m 0s"%string /\
  formatDuration 3665 = "1h 1m 5s"%string /\ formatDuration 7322 = "2h 2m 2s"%string.
Proof. repeat split. Qed.

Example getSelectedRanges_twoTicked :
  getSelectedRanges twoTicked = ["5to10"; "over2hours"]%string.
Proof. reflexivity. Qed.
